(** * node-sqlite: the SQLite persistence facade and the NodeSQLite wrapper

    A shallow embedding of [IoSqliteServer] (io-sqlite-server.ts) and of
    [NodeSQLite] (node-sqlite.ts), with the properties the specification
    states about them.

    JavaScript values are an inductive type, thrown errors a result type,
    and the statements sent to the storage engine are recorded in a trace
    next to the engine's own state. *)

From Stdlib Require Import List String Ascii ZArith Bool Lia DecimalString.
Import ListNotations.
Local Open Scope string_scope.
Local Open Scope Z_scope.

(* ================================================================= *)
(** ** JavaScript values *)

(** The values the facade handles at run time.  Numbers are modelled by
    integers; [JBytes] is a [Uint8Array] (a BLOB read from the engine). *)
#[warnings="-register-all"]
Inductive JsonValue : Type :=
| JUndefined
| JNull
| JBool (b : bool)
| JNum (n : Z)
| JStr (s : string)
| JBytes (bs : list Z)
| JArr (items : list JsonValue)
| JObj (fields : list (string * JsonValue)).

(** [Json]: an object, a mapping from keys to values in insertion order. *)
Definition Json := list (string * JsonValue).

(** What [node:sqlite] hands back in a result row:
    [null | number | bigint | string | Uint8Array]. *)
Inductive SQLOutputValue : Type :=
| SqlNull
| SqlNumber (n : Z)
| SqlText (s : string)
| SqlBlob (bs : list Z).

(** A result row of [StatementSync.all()]: [Record<string, SQLOutputValue>]. *)
Definition SqlRow := list (string * SQLOutputValue).

Definition sql_to_js (v : SQLOutputValue) : JsonValue :=
  match v with
  | SqlNull => JNull
  | SqlNumber n => JNum n
  | SqlText s => JStr s
  | SqlBlob bs => JBytes bs
  end.

Definition row_to_js (r : SqlRow) : Json :=
  map (fun kv => (fst kv, sql_to_js (snd kv))) r.

(** A thrown [Error]: its [code] property, when it has one, and its message. *)
Record JsError : Type := mkError {
  err_code : option string;
  err_message : string
}.

Definition Error_ (msg : string) : JsError := mkError None msg.

Inductive Result (A : Type) : Type :=
| Ok (a : A)
| Throw (e : JsError).
Arguments Ok {A} a.
Arguments Throw {A} e.

Definition rbind {A B} (r : Result A) (k : A -> Result B) : Result B :=
  match r with
  | Ok a => k a
  | Throw e => Throw e
  end.

(* ----------------------------------------------------------------- *)
(** *** Property access *)

(** [obj[key]]: [None] is JavaScript's [undefined] for a missing key. *)
Fixpoint obj_get (o : Json) (key : string) : option JsonValue :=
  match o with
  | [] => None
  | (k, v) :: rest => if String.eqb k key then Some v else obj_get rest key
  end.

(** [obj[key] = v]: an existing key keeps its place, a new one goes last. *)
Fixpoint obj_set (o : Json) (key : string) (v : JsonValue) : Json :=
  match o with
  | [] => [(key, v)]
  | (k, w) :: rest =>
      if String.eqb k key then (k, v) :: rest else (k, w) :: obj_set rest key v
  end.

Definition or_undefined (o : option JsonValue) : JsonValue :=
  match o with
  | Some v => v
  | None => JUndefined
  end.

(** [v?.key] *)
Definition opt_prop (v : JsonValue) (key : string) : JsonValue :=
  match v with
  | JObj o => or_undefined (obj_get o key)
  | _ => JUndefined
  end.

(** [v?.[0]]: the first element of an array or typed array, the first
    character of a string, property ["0"] of an object, and [undefined] on
    everything else ([undefined] and [null] by the optional chain, numbers and
    booleans because they have no such property). *)
Definition opt_index0 (v : JsonValue) : JsonValue :=
  match v with
  | JArr (x :: _) => x
  | JBytes (b :: _) => JNum b
  | JStr (String c _) => JStr (String c EmptyString)
  | JObj o => or_undefined (obj_get o "0")
  | _ => JUndefined
  end.

(** [a ?? b] *)
Definition nullish (a b : JsonValue) : JsonValue :=
  match a with
  | JUndefined | JNull => b
  | _ => a
  end.

Definition Array_isArray (v : JsonValue) : bool :=
  match v with
  | JArr _ => true
  | _ => false
  end.

(** [typeof v] *)
Definition typeof (v : JsonValue) : string :=
  match v with
  | JUndefined => "undefined"
  | JBool _ => "boolean"
  | JNum _ => "number"
  | JStr _ => "string"
  | JNull | JBytes _ | JArr _ | JObj _ => "object"
  end.

(* ----------------------------------------------------------------- *)
(** *** Text *)

Definition dquote : string := String (ascii_of_nat 34) EmptyString.
Definition backslash : string := String (ascii_of_nat 92) EmptyString.

Definition string_of_Z (z : Z) : string := NilZero.string_of_int (Z.to_int z).

Fixpoint join (sep : string) (l : list string) : string :=
  match l with
  | [] => ""
  | [x] => x
  | x :: rest => x ++ sep ++ join sep rest
  end.

(** String conversion, as in a template literal or in [Array.prototype.join]
    (where [null] and [undefined] elements give the empty string). *)
Fixpoint js_to_string (v : JsonValue) : string :=
  match v with
  | JUndefined => "undefined"
  | JNull => "null"
  | JBool true => "true"
  | JBool false => "false"
  | JNum n => string_of_Z n
  | JStr s => s
  | JBytes bs => join "," (map string_of_Z bs)
  | JArr items =>
      join "," ((fix each (l : list JsonValue) : list string :=
                   match l with
                   | [] => []
                   | JUndefined :: r | JNull :: r => "" :: each r
                   | x :: r => js_to_string x :: each r
                   end) items)
  | JObj _ => "[object Object]"
  end.

Definition join_element (v : JsonValue) : string :=
  match v with
  | JUndefined | JNull => ""
  | _ => js_to_string v
  end.

(** [values.join(sep)] *)
Definition Array_join (sep : string) (values : list JsonValue) : string :=
  join sep (map join_element values).

(* ----------------------------------------------------------------- *)
(** *** JSON.stringify *)

Definition hex_digit (n : nat) : ascii :=
  ascii_of_nat (if Nat.ltb n 10 then 48 + n else 87 + n).

(** One character inside a JSON string literal. *)
Definition escape_char (c : ascii) : string :=
  let n := nat_of_ascii c in
  if Nat.eqb n 34 then backslash ++ dquote
  else if Nat.eqb n 92 then backslash ++ backslash
  else if Nat.eqb n 8 then backslash ++ "b"
  else if Nat.eqb n 9 then backslash ++ "t"
  else if Nat.eqb n 10 then backslash ++ "n"
  else if Nat.eqb n 12 then backslash ++ "f"
  else if Nat.eqb n 13 then backslash ++ "r"
  else if Nat.ltb n 32 then
    backslash ++ "u00"
      ++ String (hex_digit (Nat.div n 16)) (String (hex_digit (Nat.modulo n 16)) "")
  else String c "".

Fixpoint escape_string (s : string) : string :=
  match s with
  | EmptyString => ""
  | String c rest => escape_char c ++ escape_string rest
  end.

Definition quote (s : string) : string := dquote ++ escape_string s ++ dquote.

Fixpoint index_fields (i : Z) (bs : list Z) : list string :=
  match bs with
  | [] => []
  | b :: rest =>
      (quote (string_of_Z i) ++ ":" ++ string_of_Z b) :: index_fields (i + 1) rest
  end.

(** The text of a value that is not [undefined]. *)
Fixpoint stringify_text (v : JsonValue) : string :=
  match v with
  | JUndefined | JNull => "null"
  | JBool true => "true"
  | JBool false => "false"
  | JNum n => string_of_Z n
  | JStr s => quote s
  | JBytes bs => "{" ++ join "," (index_fields 0 bs) ++ "}"
  | JArr items =>
      "[" ++ join "," ((fix each (l : list JsonValue) : list string :=
                          match l with
                          | [] => []
                          | x :: r => stringify_text x :: each r
                          end) items) ++ "]"
  | JObj fields =>
      "{" ++ join "," ((fix each (l : list (string * JsonValue)) : list string :=
                          match l with
                          | [] => []
                          | (_, JUndefined) :: r => each r
                          | (k, x) :: r =>
                              (quote k ++ ":" ++ stringify_text x) :: each r
                          end) fields) ++ "}"
  end.

(** [JSON.stringify(v)]: text, or [undefined] for [undefined]. *)
Definition JSON_stringify (v : JsonValue) : JsonValue :=
  match v with
  | JUndefined => JUndefined
  | _ => JStr (stringify_text v)
  end.

(* ----------------------------------------------------------------- *)
(** *** JSON.parse *)

Definition is_ws (c : ascii) : bool :=
  let n := nat_of_ascii c in
  Nat.eqb n 32 || Nat.eqb n 9 || Nat.eqb n 10 || Nat.eqb n 13.

Definition digit_of (c : ascii) : option Z :=
  let n := nat_of_ascii c in
  if Nat.leb 48 n && Nat.leb n 57 then Some (Z.of_nat (n - 48)) else None.

Definition hex_of (c : ascii) : option nat :=
  let n := nat_of_ascii c in
  if Nat.leb 48 n && Nat.leb n 57 then Some (n - 48)%nat
  else if Nat.leb 97 n && Nat.leb n 102 then Some (n - 87)%nat
  else if Nat.leb 65 n && Nat.leb n 70 then Some (n - 55)%nat
  else None.

Fixpoint skip_ws (s : string) : string :=
  match s with
  | String c rest => if is_ws c then skip_ws rest else s
  | EmptyString => s
  end.

Fixpoint strip_prefix (p s : string) : option string :=
  match p, s with
  | EmptyString, _ => Some s
  | String a p', String b s' => if Ascii.eqb a b then strip_prefix p' s' else None
  | String _ _, EmptyString => None
  end.

Fixpoint read_digits (acc : Z) (s : string) : Z * string :=
  match s with
  | String c rest =>
      match digit_of c with
      | Some d => read_digits (10 * acc + d) rest
      | None => (acc, s)
      end
  | EmptyString => (acc, s)
  end.

Definition starts_fraction (s : string) : bool :=
  match s with
  | String c _ =>
      let n := nat_of_ascii c in Nat.eqb n 46 || Nat.eqb n 101 || Nat.eqb n 69
  | EmptyString => false
  end.

(** An integer literal.  Literals with a fraction or an exponent are not
    numbers of this model and are refused like malformed text. *)
Definition read_number (s : string) : option (Z * string) :=
  let '(neg, body) :=
    match s with
    | String c rest => if Nat.eqb (nat_of_ascii c) 45 then (true, rest) else (false, s)
    | EmptyString => (false, s)
    end in
  match body with
  | String c rest =>
      match digit_of c with
      | Some d =>
          let '(n, tail) := if Z.eqb d 0 then (0, rest) else read_digits d rest in
          match tail with
          | String c' _ =>
              if starts_fraction tail then None
              else match digit_of c' with
                   | Some _ => None
                   | None => Some (if neg then - n else n, tail)
                   end
          | EmptyString => Some (if neg then - n else n, tail)
          end
      | None => None
      end
  | EmptyString => None
  end.

(** The body of a string literal, after its opening quote. *)
Fixpoint read_string (s : string) : option (string * string) :=
  match s with
  | EmptyString => None
  | String c rest =>
      let n := nat_of_ascii c in
      if Nat.eqb n 34 then Some ("", rest)
      else if Nat.ltb n 32 then None
      else if Nat.eqb n 92 then
        match rest with
        | String e rest' =>
            let m := nat_of_ascii e in
            let plain (k : nat) :=
              match read_string rest' with
              | Some (t, tail) => Some (String (ascii_of_nat k) t, tail)
              | None => None
              end in
            if Nat.eqb m 34 then plain 34%nat
            else if Nat.eqb m 92 then plain 92%nat
            else if Nat.eqb m 47 then plain 47%nat
            else if Nat.eqb m 98 then plain 8%nat
            else if Nat.eqb m 102 then plain 12%nat
            else if Nat.eqb m 110 then plain 10%nat
            else if Nat.eqb m 114 then plain 13%nat
            else if Nat.eqb m 116 then plain 9%nat
            else if Nat.eqb m 117 then
              match rest' with
              | String h1 (String h2 (String h3 (String h4 rest''))) =>
                  match hex_of h1, hex_of h2, hex_of h3, hex_of h4 with
                  | Some 0%nat, Some 0%nat, Some a, Some b =>
                      match read_string rest'' with
                      | Some (t, tail) =>
                          Some (String (ascii_of_nat (16 * a + b)) t, tail)
                      | None => None
                      end
                  | _, _, _, _ => None
                  end
              | _ => None
              end
            else None
        | EmptyString => None
        end
      else
        match read_string rest with
        | Some (t, tail) => Some (String c t, tail)
        | None => None
        end
  end.

Definition first_is (n : nat) (s : string) : option string :=
  match s with
  | String c rest => if Nat.eqb (nat_of_ascii c) n then Some rest else None
  | EmptyString => None
  end.

(** One value, with the text that follows it.  [fuel] bounds the nesting and
    the number of elements; [JSON_parse] below gives enough of it. *)
Fixpoint parse_value (fuel : nat) (s : string) : option (JsonValue * string) :=
  match fuel with
  | O => None
  | S fuel' =>
      let s := skip_ws s in
      match strip_prefix "null" s, strip_prefix "true" s, strip_prefix "false" s with
      | Some rest, _, _ => Some (JNull, rest)
      | _, Some rest, _ => Some (JBool true, rest)
      | _, _, Some rest => Some (JBool false, rest)
      | None, None, None =>
          match first_is 34 s, first_is 91 s, first_is 123 s with
          | Some rest, _, _ =>
              match read_string rest with
              | Some (t, tail) => Some (JStr t, tail)
              | None => None
              end
          | _, Some rest, _ =>
              match first_is 93 (skip_ws rest) with
              | Some tail => Some (JArr [], tail)
              | None =>
                  match parse_elements fuel' rest with
                  | Some (items, tail) => Some (JArr items, tail)
                  | None => None
                  end
              end
          | _, _, Some rest =>
              match first_is 125 (skip_ws rest) with
              | Some tail => Some (JObj [], tail)
              | None =>
                  match parse_members fuel' rest [] with
                  | Some (fields, tail) => Some (JObj fields, tail)
                  | None => None
                  end
              end
          | None, None, None =>
              match read_number s with
              | Some (n, tail) => Some (JNum n, tail)
              | None => None
              end
          end
      end
  end

with parse_elements (fuel : nat) (s : string) : option (list JsonValue * string) :=
  match fuel with
  | O => None
  | S fuel' =>
      match parse_value fuel' s with
      | Some (v, rest) =>
          let rest := skip_ws rest in
          match first_is 93 rest, first_is 44 rest with
          | Some tail, _ => Some ([v], tail)
          | _, Some more =>
              match parse_elements fuel' more with
              | Some (vs, tail) => Some (v :: vs, tail)
              | None => None
              end
          | None, None => None
          end
      | None => None
      end
  end

with parse_members (fuel : nat) (s : string) (acc : Json) : option (Json * string) :=
  match fuel with
  | O => None
  | S fuel' =>
      match first_is 34 (skip_ws s) with
      | Some body =>
          match read_string body with
          | Some (k, rest) =>
              match first_is 58 (skip_ws rest) with
              | Some rest =>
                  match parse_value fuel' rest with
                  | Some (v, rest) =>
                      let rest := skip_ws rest in
                      let acc := obj_set acc k v in
                      match first_is 125 rest, first_is 44 rest with
                      | Some tail, _ => Some (acc, tail)
                      | _, Some more => parse_members fuel' more acc
                      | None, None => None
                      end
                  | None => None
                  end
              | None => None
              end
          | None => None
          end
      | None => None
      end
  end.

Definition SyntaxError : JsError := Error_ "SyntaxError: not valid JSON".

(** [JSON.parse(text)] *)
Definition JSON_parse (text : string) : Result JsonValue :=
  match parse_value (2 * String.length text + 2) text with
  | Some (v, rest) =>
      match skip_ws rest with
      | EmptyString => Ok v
      | String _ _ => Throw SyntaxError
      end
  | None => Throw SyntaxError
  end.

(* ================================================================= *)
(** ** Data model *)

(** [ColumnCfg]: [{ key, type }].  The type is the tag as it is stored, a
    string, so that a tag outside the five supported ones can be written. *)
Record ColumnCfg : Type := mkColumnCfg {
  col_key : string;
  col_type : string
}.

(** [TableCfg]: [{ key, type, columns, _hash }]. *)
Record TableCfg : Type := mkTableCfg {
  key : string;
  type : string;
  columns : list ColumnCfg;
  _hash : string
}.

(** [TableType]: [{ _type, _data, _tableCfg?, _hash? }]. *)
Record TableType : Type := mkTable {
  _type : string;
  _data : list Json;
  _tableCfg : option string;
  table_hash : option string
}.

(** [Rljson]: tables by table key, in the order of the object's keys. *)
Definition Rljson := list (string * TableType).

(** [IoDbNameMapping] of [@rljson/io]: logical keys to physical identifiers. *)
Class NameMapping : Type := {
  addTableSuffix : string -> string;
  addColumnSuffix : string -> string;
  removeTableSuffix : string -> string
}.

(* ================================================================= *)
(** ** Column codec: [_serializeRow], [_parseData], [_convertToReturn] *)

Definition truthy (v : JsonValue) : bool :=
  match v with
  | JUndefined | JNull | JBool false | JNum 0 | JStr EmptyString => false
  | _ => true
  end.

(** [v === 0] *)
Definition is_zero (v : JsonValue) : bool :=
  match v with
  | JNum 0 => true
  | _ => false
  end.

(** [v === null] *)
Definition is_null (v : JsonValue) : bool :=
  match v with
  | JNull => true
  | _ => false
  end.

(** [row[idx]] *)
Definition index_at (v : JsonValue) (idx : nat) : JsonValue :=
  match v with
  | JArr items => nth idx items JUndefined
  | JBytes bs => or_undefined (option_map JNum (nth_error bs idx))
  | JStr s =>
      match String.get idx s with
      | Some c => JStr (String c EmptyString)
      | None => JUndefined
      end
  | JObj o => or_undefined (obj_get o (string_of_Z (Z.of_nat idx)))
  | _ => JUndefined
  end.

(** The loop body of [_serializeRow] for one column's value. *)
Definition serialize_value (v : JsonValue) : JsonValue :=
  let value := nullish v JNull in
  let valueType := typeof value in
  if negb (is_null value) && String.eqb valueType "object" then JSON_stringify value
  else if String.eqb valueType "boolean" then (if truthy value then JNum 1 else JNum 0)
  else value.

Definition _serializeRow (rowAsJson : Json) (tableCfg : TableCfg) : list JsonValue :=
  map (fun col => serialize_value (or_undefined (obj_get rowAsJson (col_key col))))
      (columns tableCfg).

Definition unsupported_column_type (type : string) : JsError :=
  Error_ ("Unsupported column type " ++ type).

(** The [switch (type)] of [_parseData], for a value that is neither
    [undefined] nor [null]. *)
Definition parse_value_as (type : string) (val : JsonValue) : Result JsonValue :=
  if String.eqb type "boolean" then Ok (JBool (negb (is_zero val)))
  else if String.eqb type "jsonArray" || String.eqb type "json" then
    JSON_parse (js_to_string val)
  else if String.eqb type "string" || String.eqb type "number" then Ok val
  else Throw (unsupported_column_type type).

Section Codec.
Context {NM : NameMapping}.

(** The inner loop of [_parseData]: the columns of one row, in order. *)
Fixpoint parse_columns (cols : list ColumnCfg) (row convertedRow : Json)
  : Result Json :=
  match cols with
  | [] => Ok convertedRow
  | col :: rest =>
      let keyWithSuffix := addColumnSuffix (col_key col) in
      match obj_get row keyWithSuffix with
      | None => parse_columns rest row convertedRow
      | Some JUndefined => parse_columns rest row convertedRow
      | Some JNull => parse_columns rest row convertedRow
      | Some val =>
          rbind (parse_value_as (col_type col) val) (fun decoded =>
            parse_columns rest row (obj_set convertedRow (col_key col) decoded))
      end
  end.

Fixpoint parse_rows (data : list Json) (cols : list ColumnCfg)
  : Result (list Json) :=
  match data with
  | [] => Ok []
  | row :: rest =>
      rbind (parse_columns cols row []) (fun convertedRow =>
        rbind (parse_rows rest cols) (fun convertedResult =>
          Ok (convertedRow :: convertedResult)))
  end.

Definition _parseData (data : list Json) (tableCfg : TableCfg)
  : Result (list Json) :=
  parse_rows data (columns tableCfg).

End Codec.

(** [columns.forEach((col, idx) => obj[col] = row[idx])] *)
Fixpoint assign_columns (cols : list JsonValue) (idx : nat) (row : JsonValue)
                        (obj : Json) : Json :=
  match cols with
  | [] => obj
  | col :: rest =>
      assign_columns rest (S idx) row (obj_set obj (js_to_string col) (index_at row idx))
  end.

Definition _convertToReturn (resultSet : list SqlRow) : list Json :=
  let first :=
    match resultSet with
    | r :: _ => JObj (row_to_js r)
    | [] => JUndefined
    end in
  let rows := opt_prop first "values" in
  let cols := opt_prop first "columns" in
  if negb (truthy rows) || negb (Array_isArray rows)
     || negb (truthy cols) || negb (Array_isArray cols)
  then []
  else
    match rows, cols with
    | JArr rs, JArr cs => map (fun row => assign_columns cs 0 row []) rs
    | _, _ => []
    end.

(* ================================================================= *)
(** ** Collaborators *)

(** A statement as it reaches the engine: its text and its bound parameters. *)
Record Stmt : Type := mkStmt {
  sql : string;
  params : list JsonValue
}.

(** What [run] reports: [{ changes, lastInsertRowid }]. *)
Record RunResult : Type := mkRunResult {
  changes : Z;
  lastInsertRowid : Z
}.

(** [DatabaseSync] of [node:sqlite].  [db_run] is [prepare(sql).run(...params)],
    [db_all] is [prepare(sql).all(...params)], [db_get] is
    [prepare(sql).get(...params)], [db_exec] is [exec(sql)].  A statement that
    throws may still have changed the database. *)
Class Engine : Type := {
  DB : Type;
  db_run : DB -> string -> list JsonValue -> DB * Result RunResult;
  db_exec : DB -> string -> DB * Result unit;
  db_all : DB -> string -> list JsonValue -> Result (list SqlRow);
  db_get : DB -> string -> list JsonValue -> Result (option SqlRow)
}.

(** [SqlStatements] (sql-statements.ts): the statement texts. *)
Class SqlStatements : Type := {
  sql_tableCfgs : string;
  sql_tableKeys : string;
  sql_tableCfg : string;
  sql_tableExists : string;
  sql_contentType : string;
  sql_insertTableCfg : string;
  sql_rowCount : string -> string;
  sql_allData : string -> string -> string;
  sql_createTable : TableCfg -> string;
  sql_alterTable : string -> list ColumnCfg -> list string
}.

(** [@rljson/hash]: the hash of a table configuration's content, and [hsh]
    on the data of a request (a copy with the missing hashes filled in). *)
Class Hashing : Type := {
  hash_of_cfg : TableCfg -> string;
  hsh : Rljson -> Rljson
}.

(** [hsh(tableCfg)]: a copy that carries its hash. *)
Definition hsh_cfg `{Hashing} (cfg : TableCfg) : TableCfg :=
  mkTableCfg (key cfg) (type cfg) (columns cfg) (hash_of_cfg cfg).

(** [hip(tableCfg)]: the hash is written into the configuration itself. *)
Definition hip_cfg `{Hashing} (cfg : TableCfg) : TableCfg :=
  mkTableCfg (key cfg) (type cfg) (columns cfg) (hash_of_cfg cfg).

(** [IoTools] of [@rljson/io].  Its checks read the database through the
    facade and change nothing. *)
Class IoTools `{Engine} : Type := {
  throwWhenTableDoesNotExist : DB -> string -> Result unit;
  throwWhenTablesDoNotExist : DB -> Rljson -> Result unit;
  throwWhenTableDataDoesNotMatchCfg : DB -> Rljson -> Result unit;
  throwWhenTableIsNotCompatible : DB -> TableCfg -> Result unit;
  throwWhenColumnDoesNotExist : DB -> string -> list string -> Result unit;
  tableCfg : DB -> string -> Result TableCfg;
  sortTableDataAndUpdateHash : TableType -> TableType;
  tableCfgsTableCfg : TableCfg
}.

(* ================================================================= *)
(** ** The facade's state and its monad *)

Section Facade.
Context {NM : NameMapping} {EN : Engine} {SQ : SqlStatements}
        {HS : Hashing} {IO : IoTools}.

(** The connection, and the statements issued on it so far (oldest first). *)
Record World : Type := mkWorld {
  db : DB;
  trace : list Stmt
}.

Definition M (A : Type) : Type := World -> Result A * World.

Definition ret {A} (a : A) : M A := fun w => (Ok a, w).

Definition throw {A} (e : JsError) : M A := fun w => (Throw e, w).

Definition bind {A B} (m : M A) (k : A -> M B) : M B :=
  fun w =>
    match m w with
    | (Ok a, w') => k a w'
    | (Throw e, w') => (Throw e, w')
    end.

Definition lift {A} (r : Result A) : M A := fun w => (r, w).

(** A check of [IoTools] against the current database. *)
Definition check {A} (f : DB -> Result A) : M A := fun w => (f (db w), w).

Definition log (w : World) (text : string) (ps : list JsonValue) (d : DB) : World :=
  mkWorld d (trace w ++ [mkStmt text ps]).

Definition run (text : string) (ps : list JsonValue) : M RunResult :=
  fun w => let '(d, r) := db_run (db w) text ps in (r, log w text ps d).

Definition exec (text : string) : M unit :=
  fun w => let '(d, r) := db_exec (db w) text in (r, log w text [] d).

Definition all (text : string) (ps : list JsonValue) : M (list SqlRow) :=
  fun w => (db_all (db w) text ps, log w text ps (db w)).

Definition get (text : string) (ps : list JsonValue) : M (option SqlRow) :=
  fun w => (db_get (db w) text ps, log w text ps (db w)).

End Facade.

Declare Scope facade_scope.
Delimit Scope facade_scope with facade.
Notation "x <- m ;; k" := (bind m (fun x => k))
  (at level 61, m at next level, right associativity) : facade_scope.
Notation "m ;;; k" := (bind m (fun _ => k))
  (at level 61, right associativity) : facade_scope.

(* ================================================================= *)
(** ** [IoSqliteServer] *)

Inductive Number : Type :=
| Finite (n : Z)
| NaN.

(** [Number(text)] for decimal integer text; other numeric spellings are
    not numbers of this model. *)
Definition string_to_number (text : string) : Number :=
  match skip_ws text with
  | EmptyString => Finite 0
  | String c rest as body =>
      let '(neg, digits) :=
        if Nat.eqb (nat_of_ascii c) 45 then (true, rest)
        else if Nat.eqb (nat_of_ascii c) 43 then (false, rest)
        else (false, body) in
      match digits with
      | String d _ =>
          match digit_of d with
          | Some _ =>
              let '(n, tail) := read_digits 0 digits in
              match skip_ws tail with
              | EmptyString => Finite (if neg then - n else n)
              | String _ _ => NaN
              end
          | None => NaN
          end
      | EmptyString => NaN
      end
  end.

(** [Number(v)] *)
Definition Number_ (v : JsonValue) : Number :=
  match v with
  | JUndefined => NaN
  | JNull => Finite 0
  | JBool b => Finite (if b then 1 else 0)
  | JNum n => Finite n
  | JStr s => string_to_number s
  | JObj _ => NaN
  | JBytes _ | JArr _ => string_to_number (js_to_string v)
  end.

(** The text of one insert: [INSERT OR IGNORE INTO t (c1, c2) VALUES (?, ?)]. *)
Definition insert_query `{NameMapping} (tableName : string) (cfg : TableCfg) : string :=
  let columnKeys := map col_key (columns cfg) in
  let columnKeysWithPostfix := map addColumnSuffix columnKeys in
  let placeholders := join ", " (map (fun _ => "?") columnKeys) in
  "INSERT OR IGNORE INTO " ++ addTableSuffix tableName ++ " ("
    ++ join ", " columnKeysWithPostfix ++ ") VALUES (" ++ placeholders ++ ")".

(** [s.endsWith(suffix)] *)
Definition endsWith (s suffix : string) : bool :=
  let n := String.length s in
  let m := String.length suffix in
  Nat.leb m n && String.eqb (substring (n - m) m s) suffix.

(** [s.slice(0, -k)] *)
Definition slice_off (k : nat) (s : string) : string :=
  substring 0 (String.length s - k) s.

Section Where.
Context {NM : NameMapping}.

(** One turn of the loop of [_whereString]: the condition for one column. *)
Definition where_condition (column : string) (value : JsonValue) : Result string :=
  let columnWithFix := addColumnSuffix column in
  if String.eqb (typeof value) "string" then
    Ok (columnWithFix ++ " = '" ++ js_to_string value ++ "' AND ")
  else if String.eqb (typeof value) "number" then
    Ok (columnWithFix ++ " = " ++ js_to_string value ++ " AND ")
  else if String.eqb (typeof value) "boolean" then
    Ok (columnWithFix ++ " = " ++ (if truthy value then "1" else "0") ++ " AND ")
  else if is_null value then
    Ok (columnWithFix ++ " IS NULL AND ")
  else if String.eqb (typeof value) "object" then
    Ok (columnWithFix ++ " = '" ++ js_to_string (JSON_stringify value) ++ "' AND ")
  else Throw (Error_ ("Unsupported value type for column " ++ column)).

Fixpoint where_conditions (whereClause : list (string * JsonValue))
                          (whereString : string) : Result string :=
  match whereClause with
  | [] => Ok whereString
  | (column, value) :: rest =>
      rbind (where_condition column value) (fun c =>
        where_conditions rest (whereString ++ c))
  end.

Definition _whereString (whereClause : list (string * JsonValue)) : Result string :=
  rbind (where_conditions whereClause " ") (fun whereString =>
    Ok (if endsWith whereString "AND " then slice_off 5 whereString
        else whereString)).

End Where.

Section IoSqliteServer.
Context {NM : NameMapping} {EN : Engine} {SQ : SqlStatements}
        {HS : Hashing} {IO : IoTools}.
Local Open Scope facade_scope.

(** [rowCount(table)] *)
Definition rowCount (table : string) : M Number :=
  check (fun d => throwWhenTableDoesNotExist d table) ;;;
  stmt <- all (sql_rowCount table) [] ;;
  let first :=
    match stmt with
    | r :: _ => JObj (row_to_js r)
    | [] => JUndefined
    end in
  let countRaw :=
    nullish (opt_index0 (opt_index0 (opt_prop first "values"))) (JNum 0) in
  ret (Number_ countRaw).

(** [_dumpTable(request)] *)
Definition _dumpTable (table : string) : M Rljson :=
  check (fun d => throwWhenTableDoesNotExist d table) ;;;
  let tableKey := addTableSuffix table in
  cfg <- check (fun d => tableCfg d table) ;;
  let columnKeys := map col_key (columns cfg) in
  let columnKeysWithSuffix := map addColumnSuffix columnKeys in
  resultSet <- all (sql_allData tableKey (join ", " columnKeysWithSuffix)) [] ;;
  let jsonRows := _convertToReturn resultSet in
  parsedReturnData <- lift (_parseData jsonRows cfg) ;;
  let tableCfgHash := _hash cfg in
  let table_ := mkTable (type cfg) parsedReturnData (Some tableCfgHash) (Some "") in
  ret [(table, sortTableDataAndUpdateHash table_)].

(** [_readRows(request)] *)
Definition _readRows (table : string) (where_ : Json) : M Rljson :=
  check (fun d => throwWhenTableDoesNotExist d table) ;;;
  check (fun d => throwWhenColumnDoesNotExist d table (map fst where_)) ;;;
  let tableKeyWithSuffix := addTableSuffix table in
  cfg <- check (fun d => tableCfg d table) ;;
  whereString <- lift (_whereString where_) ;;
  let query := "SELECT * FROM " ++ tableKeyWithSuffix ++ " WHERE" ++ whereString in
  resultSet <- all query [] ;;
  match resultSet with
  | [] => ret [(table, mkTable (type cfg) [] None None)]
  | _ :: _ =>
      let jsonResultSet := _convertToReturn resultSet in
      convertedResult <- lift (_parseData jsonResultSet cfg) ;;
      let table_ := mkTable (type cfg) convertedResult None None in
      ret [(table, sortTableDataAndUpdateHash table_)]
  end.

(* --------------------------------------------------------------- *)
(** *** [_write] *)

Definition SQLITE_CONSTRAINT_PRIMARYKEY : string := "SQLITE_CONSTRAINT_PRIMARYKEY".

(** [error.code === 'SQLITE_CONSTRAINT_PRIMARYKEY'] *)
Definition is_primary_key_collision (error : JsError) : bool :=
  match err_code error with
  | Some c => String.eqb c SQLITE_CONSTRAINT_PRIMARYKEY
  | None => false
  end.

Definition insert_error_message (tableName : string) (error : JsError) : string :=
  "Error inserting into table " ++ tableName ++ ": " ++ err_message error.

(** [for (const row of tableData._data)].  [errorStore] is the list of the
    messages stored so far, oldest first: [errorCount] is its length, and
    [errorStore.values()] is the list itself.  The [return] of the
    collision branch leaves the loop and the callback. *)
Fixpoint write_rows (tableName : string) (cfg : TableCfg) (rows : list Json)
                    (errorStore : list string) (w : World) : list string * World :=
  match rows with
  | [] => (errorStore, w)
  | row :: rest =>
      let query := insert_query tableName cfg in
      let serializedRow := _serializeRow row cfg in
      match run query serializedRow w with
      | (Ok _, w') => write_rows tableName cfg rest errorStore w'
      | (Throw error, w') =>
          if is_primary_key_collision error then (errorStore, w')
          else
            write_rows tableName cfg rest
              (errorStore ++ [insert_error_message tableName error]) w'
      end
  end.

(** The callback handed to [iterateTables]. *)
Definition write_table (tableName : string) (tableData : TableType)
                       (errorStore : list string) : M (list string) :=
  cfg <- check (fun d => tableCfg d tableName) ;;
  (fun w => let '(errors, w') := write_rows tableName cfg (_data tableData) errorStore w
            in (Ok errors, w')).

(** [iterateTables(hashedData, callback)] of [@rljson/rljson]: the callback
    runs on one table after the other; a callback that throws ends it. *)
Fixpoint iterateTables (tables : Rljson) (errorStore : list string)
  : M (list string) :=
  match tables with
  | [] => ret errorStore
  | (tableName, tableData) :: rest =>
      errors <- write_table tableName tableData errorStore ;;
      iterateTables rest errors
  end.

Definition aggregate_error (errorStore : list string) : JsError :=
  Error_ ("Errors occurred: " ++ join ", " errorStore).

Definition _write (data : Rljson) : M unit :=
  let hashedData := hsh data in
  check (fun d => throwWhenTablesDoNotExist d data) ;;;
  check (fun d => throwWhenTableDataDoesNotMatchCfg d data) ;;;
  errorStore <- iterateTables hashedData [] ;;
  if Nat.ltb 0 (List.length errorStore) then throw (aggregate_error errorStore)
  else ret tt.

(* --------------------------------------------------------------- *)
(** *** [_createOrExtendTable] *)

Definition ColumnCfg_json (c : ColumnCfg) : JsonValue :=
  JObj [("key", JStr (col_key c)); ("type", JStr (col_type c))].

(** A table configuration read as a row of the [tableCfgs] table. *)
Definition TableCfg_json (cfg : TableCfg) : Json :=
  [("_hash", JStr (_hash cfg)); ("key", JStr (key cfg)); ("type", JStr (type cfg));
   ("columns", JArr (map ColumnCfg_json (columns cfg)))].

Definition _insertTableCfg (tableCfgHashed : TableCfg) : M unit :=
  let tableCfgHashed := hip_cfg tableCfgHashed in
  let values := _serializeRow (TableCfg_json tableCfgHashed) tableCfgsTableCfg in
  let valuesString := Array_join ", " values in
  run sql_insertTableCfg [JStr valuesString] ;;; ret tt.

Definition _createTable (tableCfgHashed requested : TableCfg) : M unit :=
  _insertTableCfg tableCfgHashed ;;;
  exec (sql_createTable requested).

Fixpoint run_each (statements : list string) : M unit :=
  match statements with
  | [] => ret tt
  | statement :: rest => run statement [] ;;; run_each rest
  end.

Definition _extendTable (newTableCfg : TableCfg) : M unit :=
  let tableKey := key newTableCfg in
  oldTableCfg <- check (fun d => tableCfg d tableKey) ;;
  let addedColumns :=
    skipn (List.length (columns oldTableCfg)) (columns newTableCfg) in
  match addedColumns with
  | [] => ret tt
  | _ :: _ =>
      _insertTableCfg newTableCfg ;;;
      run_each (sql_alterTable tableKey addedColumns)
  end.


End IoSqliteServer.

(* ================================================================= *)
(** ** [IoSqliteServer]: the registry reads and the dump *)

Definition TypeError (msg : string) : JsError := Error_ ("TypeError: " ++ msg).

(** [returnFile[key] = table] *)
Fixpoint rljson_set (file : Rljson) (tableKey : string) (table : TableType) : Rljson :=
  match file with
  | [] => [(tableKey, table)]
  | (k, t) :: rest =>
      if String.eqb k tableKey then (k, table) :: rest
      else (k, t) :: rljson_set rest tableKey table
  end.

(** [row[0]] in the callback of [values.map]: reading a property of
    [undefined] or [null] throws. *)
Definition first_cell (row : JsonValue) : Result JsonValue :=
  match row with
  | JUndefined | JNull => Throw (TypeError "Cannot read properties of undefined")
  | _ => Ok (index_at row 0)
  end.

Fixpoint map_cells (rows : list JsonValue) : Result (list JsonValue) :=
  match rows with
  | [] => Ok []
  | row :: rest =>
      rbind (first_cell row) (fun c =>
        rbind (map_cells rest) (fun cs => Ok (c :: cs)))
  end.

(** [jsonResultSet[0]?.values?.map((row) => row[0])]: [undefined] when there
    is no first row or it has no [values]; a [values] that is not an array
    has no [map] to call. *)
Definition table_names (jsonResultSet : list Json) : Result JsonValue :=
  let first :=
    match jsonResultSet with
    | r :: _ => JObj r
    | [] => JUndefined
    end in
  match opt_prop first "values" with
  | JUndefined | JNull => Ok JUndefined
  | JArr rows => rbind (map_cells rows) (fun cells => Ok (JArr cells))
  | _ => Throw (TypeError "values.map is not a function")
  end.

Section Registry.
Context {NM : NameMapping} {EN : Engine} {SQ : SqlStatements}
        {HS : Hashing} {IO : IoTools}.
Local Open Scope facade_scope.

(** [hip(rljson, ...)] of [@rljson/hash] on a dump: the missing hashes are
    filled in. *)
Variable addMissingHashes : Rljson -> Rljson.

(** [_tableExists(tableKey)] *)
Definition _tableExists (tableKey : string) : M bool :=
  let tableKeyWithSuffix := addTableSuffix tableKey in
  result <- get sql_tableExists [JStr tableKeyWithSuffix] ;;
  ret (match result with
       | Some row =>
           match obj_get (row_to_js row) "tableKey" with
           | Some (JStr name) => String.eqb name tableKeyWithSuffix
           | _ => false
           end
       | None => false
       end).

(** [contentType(request)]: [result?.[0]] *)
Definition contentType (table : string) : M JsonValue :=
  result <- get sql_contentType [JStr table] ;;
  ret (match result with
       | Some row => or_undefined (obj_get (row_to_js row) "0")
       | None => JUndefined
       end).

(** [rawTableCfgs()] *)
Definition rawTableCfgs : M (list Json) :=
  let cfg := tableCfgsTableCfg in
  resultSet <- all sql_tableCfgs [] ;;
  let jsonResult := _convertToReturn resultSet in
  lift (_parseData jsonResult cfg).

(** The loop of [_dump] over the table names: a name is a string. *)
Fixpoint dump_tables (names : list JsonValue) (returnFile : Rljson) : M Rljson :=
  match names with
  | [] => ret returnFile
  | JStr table :: rest =>
      let tableKey := removeTableSuffix table in
      tableDump <- _dumpTable tableKey ;;
      match find (fun entry => String.eqb (fst entry) tableKey) tableDump with
      | Some (_, dumped) => dump_tables rest (rljson_set returnFile tableKey dumped)
      | None => throw (TypeError "table is missing in its dump")
      end
  | _ :: _ => throw (TypeError "the table name is not a string")
  end.

(** [_dump()]: [for (const table of tableNames)] throws when [tableNames] is
    not iterable. *)
Definition _dump : M Rljson :=
  resultSet <- all sql_tableKeys [] ;;
  let jsonResultSet := _convertToReturn resultSet in
  tableNames <- lift (table_names jsonResultSet) ;;
  match tableNames with
  | JArr names =>
      returnFile <- dump_tables names [] ;;
      ret (addMissingHashes returnFile)
  | _ => throw (TypeError "tableNames is not iterable")
  end.

End Registry.

(* ================================================================= *)
(** ** [NodeSQLite] *)

Module NodeSQLite.
Section Wrapper.
Context {EN : Engine}.

(** What [new DatabaseSync(path)] opens. *)
Variable connect : string -> DB.

(** The wrapper's fields, and the statements it has handed to the engine
    (oldest first). *)
Record t : Type := mk {
  db : option DB;
  dbPath : option string;
  issued : list Stmt
}.

Definition N (A : Type) : Type := t -> Result A * t.

Definition not_open : JsError := Error_ "Database is not open".
Definition already_open : JsError := Error_ "Database is already open".

Definition open (path : string) (inMemory : bool) : N unit :=
  fun s =>
    match db s with
    | Some _ => (Throw already_open, s)
    | None =>
        let d := if inMemory || String.eqb path ":memory:" then connect ":memory:"
                 else connect path in
        (Ok tt, mk (Some d) (Some path) (issued s))
    end.

Definition close : N unit :=
  fun s =>
    match db s with
    | None => (Throw not_open, s)
    | Some _ => (Ok tt, mk None None (issued s))
    end.

Definition execute (text : string) (ps : list JsonValue) : N RunResult :=
  fun s =>
    match db s with
    | None => (Throw not_open, s)
    | Some d =>
        let '(d', result) := db_run d text ps in
        (result, mk (Some d') (dbPath s) (issued s ++ [mkStmt text ps]))
    end.



(** [try { body } catch (error) { handler(error) }] *)
Definition try_catch {A} (body : N A) (handler : JsError -> N A) : N A :=
  fun s =>
    match body s with
    | (Ok a, s') => (Ok a, s')
    | (Throw error, s') => handler error s'
    end.

Definition seq {A B} (m : N A) (k : A -> N B) : N B :=
  fun s =>
    match m s with
    | (Ok a, s') => k a s'
    | (Throw e, s') => (Throw e, s')
    end.

Definition transaction {T} (fn : N T) : N T :=
  fun s =>
    match db s with
    | None => (Throw not_open, s)
    | Some _ =>
        seq (execute "BEGIN TRANSACTION" []) (fun _ =>
          try_catch
            (seq fn (fun result =>
               seq (execute "COMMIT" []) (fun _ =>
                 fun s' => (Ok result, s'))))
            (fun error =>
               seq (execute "ROLLBACK" []) (fun _ =>
                 fun s' => (Throw error, s')))) s
    end.

(** [prepare(sql).all(...params)] and [prepare(sql).get(...params)] for a
    text of the caller's choice: such a statement may change the database. *)
Variable all_rows : DB -> string -> list JsonValue -> DB * Result (list SqlRow).
Variable first_row : DB -> string -> list JsonValue -> DB * Result (option SqlRow).

Definition query (text : string) (ps : list JsonValue) : N (list SqlRow) :=
  fun s =>
    match db s with
    | None => (Throw not_open, s)
    | Some d =>
        let '(d', result) := all_rows d text ps in
        (result, mk (Some d') (dbPath s) (issued s ++ [mkStmt text ps]))
    end.

(** [queryOne]: the row, or [null] (here [JNull]) when there is none. *)
Definition queryOne (text : string) (ps : list JsonValue) : N JsonValue :=
  fun s =>
    match db s with
    | None => (Throw not_open, s)
    | Some d =>
        let '(d', result) := first_row d text ps in
        (match result with
         | Ok (Some row) => Ok (JObj (row_to_js row))
         | Ok None => Ok JNull
         | Throw e => Throw e
         end,
         mk (Some d') (dbPath s) (issued s ++ [mkStmt text ps]))
    end.

(** [new NodeSQLite()] *)
Definition created : t := mk None None [].

(** [NodeSQLite.inMemory()] *)
Definition inMemory : Result unit * t := open ":memory:" true created.

End Wrapper.
End NodeSQLite.

(* ================================================================= *)
(** ** Reference behaviour

    What the specification says the operations do, written as plain
    functions of the engine, to compare the facade with. *)

Definition column_eqb (a b : ColumnCfg) : bool :=
  String.eqb (col_key a) (col_key b) && String.eqb (col_type a) (col_type b).

(** The stored columns are the first columns of the new ones. *)
Fixpoint is_prefix (stored new : list ColumnCfg) : bool :=
  match stored, new with
  | [], _ => true
  | a :: stored', b :: new' => column_eqb a b && is_prefix stored' new'
  | _ :: _, [] => false
  end.

(** The insert of one row. *)
Definition insert_of `{NameMapping} (tableName : string) (cfg : TableCfg) (row : Json)
  : Stmt :=
  mkStmt (insert_query tableName cfg) (_serializeRow row cfg).

(** The inserts of a request, table after table and row after row, each
    with the name of its table. *)
Definition plan `{NameMapping} (cfg_of : string -> TableCfg) (tables : Rljson)
  : list (string * Stmt) :=
  flat_map (fun entry =>
              map (fun row => (fst entry, insert_of (fst entry) (cfg_of (fst entry)) row))
                  (_data (snd entry))) tables.

(** The database after every statement has been run, whether it failed or
    not: nothing is rolled back. *)
Definition run_all `{Engine} (planned : list (string * Stmt)) (d : DB) : DB :=
  fold_left (fun d p => fst (db_run d (sql (snd p)) (params (snd p)))) planned d.

(** The messages of the statements that fail, in order, when every statement
    is run. *)
Fixpoint failures `{Engine} (planned : list (string * Stmt)) (d : DB) : list string :=
  match planned with
  | [] => []
  | (tableName, s) :: rest =>
      match db_run d (sql s) (params s) with
      | (d', Ok _) => failures rest d'
      | (d', Throw e) =>
          ("Error inserting into table " ++ tableName ++ ": " ++ err_message e)
            :: failures rest d'
      end
  end.




Section Schema.
Context {NM : NameMapping} {EN : Engine} {SQ : SqlStatements}
        {HS : Hashing} {IO : IoTools}.
Local Open Scope facade_scope.


(** The registry insert of a configuration. *)
Definition persist (cfg : TableCfg) : Stmt :=
  mkStmt sql_insertTableCfg
    [JStr (Array_join ", "
             (_serializeRow (TableCfg_json (hip_cfg (hsh_cfg cfg))) tableCfgsTableCfg))].




End Schema.

(* ================================================================= *)
(** ** A memory-backed environment

    Stand-ins for the collaborators, small enough to evaluate the facade on
    concrete requests: suffix name mapping, the statement texts, an engine
    that keeps its tables in a list, and the checks of [IoTools] over a list
    of registered configurations. *)

Module Memory.

#[export] Instance names : NameMapping := {|
  addTableSuffix := fun t => t ++ "_tbl";
  addColumnSuffix := fun c => c ++ "_col";
  removeTableSuffix := fun t => substring 0 (String.length t - 4) t
|}.

Definition sql_type (type : string) : string :=
  if String.eqb type "string" then "TEXT"
  else if String.eqb type "number" then "REAL"
  else if String.eqb type "boolean" then "INTEGER"
  else "TEXT".

Definition column_definition (c : ColumnCfg) : string :=
  addColumnSuffix (col_key c) ++ " " ++ sql_type (col_type c).

(** Modelled from the spec: the statement texts of [SqlStatements]
    (sql-statements.ts is not among the sources), after the description of
    the query translator: one physical column per configured column in
    declared order, one ADD COLUMN statement per added column, a count, a
    select of the named columns, and the registry look-ups. *)
#[export] Instance statements : SqlStatements := {|
  sql_tableCfgs := "SELECT * FROM tableCfgs_tbl";
  sql_tableKeys := "SELECT name FROM sqlite_master WHERE type = 'table'";
  sql_tableCfg := "SELECT * FROM tableCfgs_tbl WHERE key_col = ?";
  sql_tableExists :=
    "SELECT name AS tableKey FROM sqlite_master WHERE type = 'table' AND name = ?";
  sql_contentType := "SELECT type_col FROM tableCfgs_tbl WHERE key_col = ?";
  sql_insertTableCfg :=
    "INSERT INTO tableCfgs_tbl (_hash_col, key_col, type_col, columns_col) VALUES (?, ?, ?, ?)";
  sql_rowCount := fun table => "SELECT COUNT(*) FROM " ++ addTableSuffix table;
  sql_allData := fun tableKey namedColumns =>
    "SELECT " ++ namedColumns ++ " FROM " ++ tableKey;
  sql_createTable := fun cfg =>
    "CREATE TABLE " ++ addTableSuffix (key cfg) ++ " ("
      ++ join ", " (map column_definition (columns cfg)) ++ ")";
  sql_alterTable := fun tableKey added =>
    map (fun c => "ALTER TABLE " ++ addTableSuffix tableKey ++ " ADD COLUMN "
                    ++ column_definition c) added
|}.

#[export] Instance hashing : Hashing := {|
  hash_of_cfg := fun cfg => _hash cfg;
  hsh := fun data => data
|}.

(** A physical table: its name, its columns (the first one is the primary
    key) and its rows. *)
Record MemTable : Type := mkMemTable {
  tbl_name : string;
  tbl_columns : list string;
  tbl_rows : list (list SQLOutputValue)
}.

Record MemDB : Type := mkMemDB {
  tables : list MemTable;
  registered : list TableCfg;
  ddl : list string;
  snapshot : option (list MemTable)
}.

Definition sqlite_error (msg : string) : JsError :=
  mkError (Some "ERR_SQLITE_ERROR") msg.

Definition sql_value_eqb (a b : SQLOutputValue) : bool :=
  match a, b with
  | SqlNull, SqlNull => true
  | SqlNumber x, SqlNumber y => Z.eqb x y
  | SqlText x, SqlText y => String.eqb x y
  | SqlBlob x, SqlBlob y =>
      Nat.eqb (List.length x) (List.length y)
      && forallb (fun p => Z.eqb (fst p) (snd p)) (combine x y)
  | _, _ => false
  end.

Definition bind_param (v : JsonValue) : option SQLOutputValue :=
  match v with
  | JNull => Some SqlNull
  | JNum n => Some (SqlNumber n)
  | JStr s => Some (SqlText s)
  | JBytes bs => Some (SqlBlob bs)
  | _ => None
  end.

Fixpoint bind_params (ps : list JsonValue) : option (list SQLOutputValue) :=
  match ps with
  | [] => Some []
  | p :: rest =>
      match bind_param p, bind_params rest with
      | Some c, Some cs => Some (c :: cs)
      | _, _ => None
      end
  end.

Definition insert_text (t : MemTable) : string :=
  "INSERT OR IGNORE INTO " ++ tbl_name t ++ " (" ++ join ", " (tbl_columns t)
    ++ ") VALUES (" ++ join ", " (map (fun _ => "?") (tbl_columns t)) ++ ")".

Definition select_text (t : MemTable) : string :=
  "SELECT " ++ join ", " (tbl_columns t) ++ " FROM " ++ tbl_name t.

Definition count_text (t : MemTable) : string :=
  "SELECT COUNT(*) FROM " ++ tbl_name t.

Definition same_key (cells row : list SQLOutputValue) : bool :=
  match cells, row with
  | c :: _, r :: _ => sql_value_eqb c r
  | _, _ => false
  end.

(** INSERT OR IGNORE: a row whose key is already stored is skipped. *)
Definition insert_or_ignore (cells : list SQLOutputValue) (t : MemTable)
  : MemTable * RunResult :=
  if existsb (same_key cells) (tbl_rows t) then (t, mkRunResult 0 0)
  else (mkMemTable (tbl_name t) (tbl_columns t) (tbl_rows t ++ [cells]),
        mkRunResult 1 (Z.of_nat (S (List.length (tbl_rows t))))).

Fixpoint insert_into (text : string) (cells : list SQLOutputValue)
                     (ts : list MemTable) : option (list MemTable * RunResult) :=
  match ts with
  | [] => None
  | t :: rest =>
      if String.eqb text (insert_text t) then
        let '(t', r) := insert_or_ignore cells t in Some (t' :: rest, r)
      else
        match insert_into text cells rest with
        | Some (rest', r) => Some (t :: rest', r)
        | None => None
        end
  end.

Definition mem_run (d : MemDB) (text : string) (ps : list JsonValue)
  : MemDB * Result RunResult :=
  if String.eqb text "BEGIN TRANSACTION" then
    match snapshot d with
    | Some _ =>
        (d, Throw (sqlite_error "cannot start a transaction within a transaction"))
    | None =>
        (mkMemDB (tables d) (registered d) (ddl d) (Some (tables d)),
         Ok (mkRunResult 0 0))
    end
  else if String.eqb text "COMMIT" then
    match snapshot d with
    | Some _ => (mkMemDB (tables d) (registered d) (ddl d) None, Ok (mkRunResult 0 0))
    | None => (d, Throw (sqlite_error "cannot commit - no transaction is active"))
    end
  else if String.eqb text "ROLLBACK" then
    match snapshot d with
    | Some saved => (mkMemDB saved (registered d) (ddl d) None, Ok (mkRunResult 0 0))
    | None => (d, Throw (sqlite_error "cannot rollback - no transaction is active"))
    end
  else if prefix "INSERT OR IGNORE INTO " text then
    match bind_params ps with
    | None =>
        (d, Throw (mkError (Some "ERR_INVALID_ARG_TYPE")
                     "Provided value cannot be bound to SQLite parameter"))
    | Some cells =>
        match insert_into text cells (tables d) with
        | Some (ts, r) => (mkMemDB ts (registered d) (ddl d) (snapshot d), Ok r)
        | None => (d, Throw (sqlite_error "no such table"))
        end
    end
  else
    (mkMemDB (tables d) (registered d) (ddl d ++ [text]) (snapshot d),
     Ok (mkRunResult 0 0)).

Definition mem_exec (d : MemDB) (text : string) : MemDB * Result unit :=
  (mkMemDB (tables d) (registered d) (ddl d ++ [text]) (snapshot d), Ok tt).

Definition as_row (t : MemTable) (cells : list SQLOutputValue) : SqlRow :=
  combine (tbl_columns t) cells.

(** The text of a select with one equality on a text column, for the
    stored value [v] of column [c]. *)
Definition where_text (t : MemTable) (c v : string) : string :=
  "SELECT * FROM " ++ tbl_name t ++ " WHERE " ++ c ++ " = '" ++ v ++ "'".

Definition cell_is (row : SqlRow) (c v : string) : bool :=
  existsb (fun kv => String.eqb (fst kv) c && sql_value_eqb (snd kv) (SqlText v)) row.

(** The rows a select with one equality returns, when [text] is such a
    select for a value that is stored. *)
Definition select_where (t : MemTable) (text : string) : option (list SqlRow) :=
  let rows := map (as_row t) (tbl_rows t) in
  let candidates :=
    flat_map (fun row =>
      flat_map (fun kv =>
        match snd kv with
        | SqlText v => [(fst kv, v)]
        | _ => []
        end) row) rows in
  match find (fun cv => String.eqb text (where_text t (fst cv) (snd cv))) candidates with
  | Some (c, v) => Some (filter (fun row => cell_is row c v) rows)
  | None => None
  end.

Fixpoint mem_select (ts : list MemTable) (text : string) : option (list SqlRow) :=
  match ts with
  | [] => None
  | t :: rest =>
      if String.eqb text (select_text t) then Some (map (as_row t) (tbl_rows t))
      else if String.eqb text (count_text t) then
        Some [[("COUNT(*)", SqlNumber (Z.of_nat (List.length (tbl_rows t))))]]
      else
        match select_where t text with
        | Some rows => Some rows
        | None =>
            if prefix ("SELECT * FROM " ++ tbl_name t ++ " WHERE ") text then Some []
            else mem_select rest text
        end
  end.

Definition mem_all (d : MemDB) (text : string) (ps : list JsonValue)
  : Result (list SqlRow) :=
  match mem_select (tables d) text with
  | Some rows => Ok rows
  | None => Throw (sqlite_error "no such table")
  end.

Definition find_cfg (d : MemDB) (tableKey : string) : option TableCfg :=
  find (fun cfg => String.eqb (key cfg) tableKey) (rev (registered d)).

Definition mem_get (d : MemDB) (text : string) (ps : list JsonValue)
  : Result (option SqlRow) :=
  match ps with
  | [JStr k] =>
      if String.eqb text sql_tableCfg then
        match find_cfg d k with
        | Some cfg => Ok (Some [("_hash_col", SqlText (_hash cfg));
                                ("key_col", SqlText (key cfg));
                                ("type_col", SqlText (type cfg))])
        | None => Ok None
        end
      else if String.eqb text sql_tableExists then
        if existsb (fun t => String.eqb (tbl_name t) k) (tables d)
        then Ok (Some [("tableKey", SqlText k)])
        else Ok None
      else Throw (sqlite_error "unknown statement")
  | _ => Throw (sqlite_error "unknown statement")
  end.

#[export] Instance engine : Engine := {|
  DB := MemDB;
  db_run := mem_run;
  db_exec := mem_exec;
  db_all := mem_all;
  db_get := mem_get
|}.

Definition table_not_found (table : string) : JsError :=
  Error_ ("Table " ++ dquote ++ table ++ dquote ++ " not found").

Definition column_not_found (column : string) : JsError :=
  Error_ ("Column " ++ dquote ++ column ++ dquote ++ " not found").

Definition schema_incompatible (cfg : TableCfg) : JsError :=
  Error_ ("Invalid update of columns for table " ++ dquote ++ key cfg ++ dquote).

Definition has_column (cfg : TableCfg) (column : string) : bool :=
  existsb (fun c => String.eqb (col_key c) column) (columns cfg).

Fixpoint first_error (checks : list (Result unit)) : Result unit :=
  match checks with
  | [] => Ok tt
  | Ok _ :: rest => first_error rest
  | Throw e :: _ => Throw e
  end.

Definition mem_tableCfg (d : MemDB) (table : string) : Result TableCfg :=
  match find_cfg d table with
  | Some cfg => Ok cfg
  | None => Throw (table_not_found table)
  end.

Definition mem_table_exists (d : MemDB) (table : string) : Result unit :=
  rbind (mem_tableCfg d table) (fun _ => Ok tt).

Definition mem_columns_exist (d : MemDB) (table : string) (cols : list string)
  : Result unit :=
  rbind (mem_tableCfg d table) (fun cfg =>
    first_error (map (fun c => if has_column cfg c then Ok tt
                               else Throw (column_not_found c)) cols)).

Definition mem_data_matches (d : MemDB) (data : Rljson) : Result unit :=
  first_error
    (flat_map (fun entry =>
       map (fun row => mem_columns_exist d (fst entry) (map fst row))
           (_data (snd entry))) data).

Definition mem_compatible (d : MemDB) (cfg : TableCfg) : Result unit :=
  match find_cfg d (key cfg) with
  | None => Ok tt
  | Some stored =>
      if is_prefix (columns stored) (columns cfg) then Ok tt
      else Throw (schema_incompatible cfg)
  end.

(** The configuration of the registry table itself. *)
Definition registry_cfg : TableCfg :=
  mkTableCfg "tableCfgs" "tableCfgs"
    [mkColumnCfg "_hash" "string"; mkColumnCfg "key" "string";
     mkColumnCfg "type" "string"; mkColumnCfg "columns" "jsonArray"] "".

#[export] Instance tools : IoTools := {|
  throwWhenTableDoesNotExist := mem_table_exists;
  throwWhenTablesDoNotExist := fun d data =>
    first_error (map (fun entry => mem_table_exists d (fst entry)) data);
  throwWhenTableDataDoesNotMatchCfg := mem_data_matches;
  throwWhenTableIsNotCompatible := mem_compatible;
  throwWhenColumnDoesNotExist := mem_columns_exist;
  tableCfg := mem_tableCfg;
  sortTableDataAndUpdateHash := fun table => table;
  tableCfgsTableCfg := registry_cfg
|}.

(* ----------------------------------------------------------------- *)
(** *** The scenario of the specification: a table of users *)

Definition users_cfg : TableCfg :=
  mkTableCfg "users" "components"
    [mkColumnCfg "id" "number"; mkColumnCfg "name" "string"] "cfg-hash-1".


(** A document with every kind of JSON value. *)
Definition sample_doc : JsonValue :=
  JObj [("a", JNum 1);
        ("b", JArr [JBool true; JNull; JStr ("x " ++ dquote ++ "y" ++ backslash); JNum (-20)]);
        ("c", JObj [])].


(** A table with a json column. *)
Definition docs_cfg : TableCfg :=
  mkTableCfg "docs" "components" [mkColumnCfg "doc" "json"] "cfg-hash-4".

Definition alice : Json := [("id", JNum 1); ("name", JStr "Alice")].
Definition bob : Json := [("id", JNum 2); ("name", JStr "Bob")].

Definition users_data : Rljson :=
  [("users", mkTable "components" [alice; bob] None None)].

(** [users] is registered and its physical table is empty. *)
Definition fresh_db : MemDB :=
  mkMemDB [mkMemTable "users_tbl" ["id_col"; "name_col"] []] [users_cfg] [] None.

Definition fresh : World := mkWorld fresh_db [].

(** The world after [users_data] has been written. *)
Definition written : World := snd (_write users_data fresh).

(** Nothing is registered. *)
Definition empty_world : World := mkWorld (mkMemDB [] [] [] None) [].

(** An open connection on the users database, and callbacks for
    [transaction]: one that closes the connection and then throws, one that
    inserts a row and then throws, one that inserts a row, commits and then
    throws, one that inserts a row and returns. *)
Definition connection : NodeSQLite.t :=
  NodeSQLite.mk (Some fresh_db) (Some ":memory:") [].

Definition boom : JsError := Error_ "boom".

Definition insert_carol : NodeSQLite.N RunResult :=
  NodeSQLite.execute "INSERT OR IGNORE INTO users_tbl (id_col, name_col) VALUES (?, ?)"
    [JNum 3; JStr "Carol"].

Definition close_then_throw : NodeSQLite.N unit :=
  NodeSQLite.seq NodeSQLite.close (fun _ => fun s => (Throw boom, s)).

Definition insert_then_throw : NodeSQLite.N unit :=
  NodeSQLite.seq insert_carol (fun _ => fun s => (Throw boom, s)).

Definition commit_then_throw : NodeSQLite.N unit :=
  NodeSQLite.seq insert_carol (fun _ =>
    NodeSQLite.seq (NodeSQLite.execute "COMMIT" []) (fun _ =>
      fun s => (Throw boom, s))).

Definition insert_then_return : NodeSQLite.N Z :=
  NodeSQLite.seq insert_carol (fun r => fun s => (Ok (changes r), s)).

(** The same columns as [users_cfg] in another order. *)
Definition users_reordered : TableCfg :=
  mkTableCfg "users" "components"
    [mkColumnCfg "name" "string"; mkColumnCfg "id" "number"] "cfg-hash-5".

(** A table that is registered while its physical table is missing: every
    insert into it fails. *)
Definition ghosts_cfg : TableCfg :=
  mkTableCfg "ghosts" "components" [mkColumnCfg "id" "number"] "cfg-hash-6".

Definition haunted : World :=
  mkWorld (mkMemDB [mkMemTable "users_tbl" ["id_col"; "name_col"] []]
                   [users_cfg; ghosts_cfg] [] None) [].

Definition mixed_data : Rljson :=
  [("ghosts", mkTable "components" [[("id", JNum 7)]; [("id", JNum 8)]] None None);
   ("users", mkTable "components" [alice; bob] None None)].

Definition cfg_by_name (name : string) : TableCfg :=
  if String.eqb name "ghosts" then ghosts_cfg else users_cfg.



(** The memory engine behind [query] and [queryOne]. *)
Definition mem_all_rows (d : MemDB) (text : string) (ps : list JsonValue)
  : MemDB * Result (list SqlRow) := (d, mem_all d text ps).

Definition mem_first_row (d : MemDB) (text : string) (ps : list JsonValue)
  : MemDB * Result (option SqlRow) :=
  (d, match mem_all d text ps with
      | Ok (r :: _) => Ok (Some r)
      | Ok [] => Ok None
      | Throw e => Throw e
      end).



(** Data for a table that is not registered, next to the users. *)
Definition stray_data : Rljson :=
  [("users", mkTable "components" [alice; bob] None None);
   ("strangers", mkTable "components" [alice] None None)].

(** A callback that nests a transaction. *)
Definition nested : NodeSQLite.N Z :=
  NodeSQLite.transaction insert_then_return.

End Memory.

(* ================================================================= *)
(** ** An engine that reports collisions

    A stand-in for an engine whose errors carry the collision code: a row is
    kept by its statement text and first parameter, and inserting it again
    throws. *)

Module Strict.

Definition same_row (text : string) (ps : list JsonValue) (kept : Stmt) : bool :=
  String.eqb text (sql kept)
  && match ps, params kept with
     | JNum a :: _, JNum b :: _ => Z.eqb a b
     | JStr a :: _, JStr b :: _ => String.eqb a b
     | _, _ => false
     end.

Definition collision : JsError :=
  mkError (Some "SQLITE_CONSTRAINT_PRIMARYKEY") "UNIQUE constraint failed".

Definition strict_run (d : list Stmt) (text : string) (ps : list JsonValue)
  : list Stmt * Result RunResult :=
  if existsb (same_row text ps) d then (d, Throw collision)
  else ((d ++ [mkStmt text ps])%list,
        Ok (mkRunResult 1 (Z.of_nat (S (List.length d))))).

Definition already_exists : JsError :=
  mkError (Some "ERR_SQLITE_ERROR") "table already exists".

(** A statement run through [exec] is kept; the same text again is refused,
    as a second CREATE TABLE of the same table is. *)
Definition strict_exec (d : list Stmt) (text : string) : list Stmt * Result unit :=
  if existsb (fun kept => String.eqb text (sql kept)) d then (d, Throw already_exists)
  else ((d ++ [mkStmt text []])%list, Ok tt).

#[export] Instance engine : Engine := {|
  DB := list Stmt;
  db_run := strict_run;
  db_exec := strict_exec;
  db_all := fun d text ps => Ok [];
  db_get := fun d text ps =>
    Ok (match d with
        | [] => None
        | _ :: _ => Some [("type_col", SqlText "components")]
        end)
|}.

#[export] Instance tools : IoTools := {|
  throwWhenTableDoesNotExist := fun d table => Ok tt;
  throwWhenTablesDoNotExist := fun d data => Ok tt;
  throwWhenTableDataDoesNotMatchCfg := fun d data => Ok tt;
  throwWhenTableIsNotCompatible := fun d cfg => Ok tt;
  throwWhenColumnDoesNotExist := fun d table cols => Ok tt;
  tableCfg := fun d table => Ok Memory.users_cfg;
  sortTableDataAndUpdateHash := fun table => table;
  tableCfgsTableCfg := Memory.registry_cfg
|}.

(** Alice is stored already. *)
Definition with_alice : World :=
  mkWorld [mkStmt "INSERT OR IGNORE INTO users_tbl (id_col, name_col) VALUES (?, ?)"
             [JNum 1; JStr "Alice"]] [].

(** The registry holds the entry of [docs_cfg] already. *)
Definition with_entry : World :=
  mkWorld [persist (SQ := Memory.statements) (HS := Memory.hashing) (IO := tools)
             Memory.docs_cfg] [].

(** The physical table of [docs_cfg] exists already. *)
Definition with_table : World :=
  mkWorld [mkStmt "CREATE TABLE docs_tbl (doc_col TEXT)" []] [].

End Strict.

(* ================================================================= *)
(** ** Notions used in the statements *)

(** A row of integers, as the engine answers a count. *)
Definition integer_cells (r : SqlRow) : bool :=
  forallb (fun kv => match snd kv with
                     | SqlNumber _ => true
                     | _ => false
                     end) r.










(** The condition that [_whereString] writes for one column, without the
    connective that follows it. *)
Definition condition_text `{NameMapping} (cv : string * JsonValue) : string :=
  addColumnSuffix (fst cv)
  ++ match snd cv with
     | JStr s => " = '" ++ s ++ "'"
     | JNum n => " = " ++ string_of_Z n
     | JBool true => " = 1"
     | JBool false => " = 0"
     | JNull => " IS NULL"
     | v => " = '" ++ js_to_string (JSON_stringify v) ++ "'"
     end.

Definition is_defined (v : JsonValue) : bool :=
  match v with
  | JUndefined => false
  | _ => true
  end.


(*PROPERTIES*)
(* ================================================================= *)
(** ** Properties *)

Section Properties.
Context {NM : NameMapping} {EN : Engine} {SQ : SqlStatements}
        {HS : Hashing} {IO : IoTools}.

(** No cell of an engine row is a JavaScript array. *)
Lemma sql_cell_not_array :
  forall (r : SqlRow) (k : string),
    Array_isArray (or_undefined (obj_get (row_to_js r) k)) = false.
Proof.
  induction r as [|[c v] r IH]; intros k; simpl.
  - reflexivity.
  - destruct (String.eqb c k); [destruct v; reflexivity | apply IH].
Qed.

(** On the rows [node:sqlite] returns, [_convertToReturn] yields nothing:
    a row object has no array under [values]. *)
Lemma convertToReturn_nil :
  forall resultSet : list SqlRow, _convertToReturn resultSet = [].
Proof.
  intros [|r rest]; unfold _convertToReturn; simpl.
  - reflexivity.
  - rewrite (sql_cell_not_array r "values"). simpl.
    rewrite orb_true_r. reflexivity.
Qed.

(** C1, as the code behaves: once the table is registered and the engine
    has answered the select, the Table that [dumpTable] returns is built
    from no rows at all, whatever rows [stored] the engine returned; rows
    written before are not read back. *)
Theorem dumpTable_returns_no_rows :
  forall (table : string) (w : World) (cfg : TableCfg) (stored : list SqlRow),
    throwWhenTableDoesNotExist (db w) table = Ok tt ->
    tableCfg (db w) table = Ok cfg ->
    db_all (db w)
      (sql_allData (addTableSuffix table)
         (join ", " (map addColumnSuffix (map col_key (columns cfg))))) []
    = Ok stored ->
    fst (_dumpTable table w)
    = Ok [(table,
           sortTableDataAndUpdateHash
             (mkTable (type cfg) [] (Some (_hash cfg)) (Some "")))].
Proof.
  intros table w cfg stored Hexists Hcfg Hall.
  unfold _dumpTable, bind, check, all, lift, ret.
  rewrite Hexists, Hcfg, Hall. simpl.
  rewrite convertToReturn_nil. reflexivity.
Qed.

(** C5, as the code behaves: for a registered table, [rowCount] returns 0
    whenever the engine answers the count with a row of integers, whatever
    the integer is. *)
Theorem rowCount_returns_zero :
  forall (table : string) (w : World) (counted : list SqlRow),
    throwWhenTableDoesNotExist (db w) table = Ok tt ->
    db_all (db w) (sql_rowCount table) [] = Ok counted ->
    forallb integer_cells counted = true ->
    fst (rowCount table w) = Ok (Finite 0).
Proof.
  intros table w counted Hexists Hall Hints.
  unfold rowCount, bind, check, all, ret.
  rewrite Hexists, Hall. simpl.
  destruct counted as [|r rest]; [reflexivity|].
  simpl in Hints. apply andb_prop in Hints. destruct Hints as [Hr _].
  assert (Hcell : forall k, opt_index0 (opt_index0 (or_undefined (obj_get (row_to_js r) k)))
                            = JUndefined).
  { clear -Hr. induction r as [|[c v] r IH]; intros k; simpl.
    - reflexivity.
    - simpl in Hr. apply andb_prop in Hr. destruct Hr as [Hv Hr].
      destruct (String.eqb c k).
      + destruct v; simpl in Hv; try discriminate. reflexivity.
      + apply IH. exact Hr. }
  simpl. rewrite Hcell. reflexivity.
Qed.

(** For a table that the check refuses, [rowCount] fails with the check's
    error and asks the engine nothing. *)
Lemma rowCount_unregistered :
  forall (table : string) (w : World) (e : JsError),
    throwWhenTableDoesNotExist (db w) table = Throw e ->
    rowCount table w = (Throw e, w).
Proof.
  intros table w e H. unfold rowCount, bind, check. rewrite H. reflexivity.
Qed.

(** C9, as the code behaves: once the checks have passed and the engine has
    answered the select, the Table that [readRows] returns is built from no
    rows at all, whatever rows [matched] the engine returned. *)
Theorem readRows_returns_no_rows :
  forall (table : string) (where_ : Json) (w : World) (cfg : TableCfg)
         (whereString : string) (matched : list SqlRow),
    throwWhenTableDoesNotExist (db w) table = Ok tt ->
    throwWhenColumnDoesNotExist (db w) table (map fst where_) = Ok tt ->
    tableCfg (db w) table = Ok cfg ->
    _whereString where_ = Ok whereString ->
    db_all (db w) ("SELECT * FROM " ++ addTableSuffix table ++ " WHERE" ++ whereString) []
    = Ok matched ->
    fst (_readRows table where_ w)
    = Ok [(table,
           match matched with
           | [] => mkTable (type cfg) [] None None
           | _ :: _ => sortTableDataAndUpdateHash (mkTable (type cfg) [] None None)
           end)].
Proof.
  intros table where_ w cfg whereString matched Hexists Hcols Hcfg Hwhere Hall.
  unfold _readRows, bind, check, all, lift, ret. cbv beta.
  rewrite Hexists. cbv beta iota. rewrite Hcols. cbv beta iota.
  rewrite Hcfg. cbv beta iota. rewrite Hwhere. cbv beta iota zeta.
  unfold log. cbn [db]. rewrite Hall. cbv beta iota.
  destruct matched as [|r rest].
  - reflexivity.
  - rewrite convertToReturn_nil. reflexivity.
Qed.

(* ----------------------------------------------------------------- *)
(** *** Text lemmas for [_whereString] *)

Lemma append_assoc : forall a b c : string, ((a ++ b) ++ c = a ++ (b ++ c))%string.
Proof. induction a as [|x a IH]; intros; simpl; [reflexivity | now rewrite IH]. Qed.

Lemma length_append :
  forall a b : string, String.length (a ++ b) = (String.length a + String.length b)%nat.
Proof. induction a as [|x a IH]; intros; simpl; [reflexivity | now rewrite IH]. Qed.

Lemma substring_whole : forall b : string, substring 0 (String.length b) b = b.
Proof. induction b as [|x b IH]; simpl; [reflexivity | now rewrite IH]. Qed.

Lemma substring_after :
  forall (a b : string) (m : nat),
    substring (String.length a) m (a ++ b) = substring 0 m b.
Proof. induction a as [|x a IH]; intros; simpl; [reflexivity | apply IH]. Qed.

Lemma substring_before :
  forall a b : string, substring 0 (String.length a) (a ++ b) = a.
Proof.
  induction a as [|x a IH]; intros; simpl.
  - destruct b; reflexivity.
  - now rewrite IH.
Qed.

Lemma endsWith_append : forall a suffix : string, endsWith (a ++ suffix) suffix = true.
Proof.
  intros a suffix. unfold endsWith. rewrite length_append.
  replace (String.length a + String.length suffix - String.length suffix)%nat
    with (String.length a) by lia.
  rewrite substring_after, substring_whole, String.eqb_refl.
  rewrite andb_true_r. apply Nat.leb_le. lia.
Qed.

Lemma slice_off_append :
  forall a b : string, slice_off (String.length b) (a ++ b) = a.
Proof.
  intros a b. unfold slice_off. rewrite length_append.
  replace (String.length a + String.length b - String.length b)%nat
    with (String.length a) by lia.
  apply substring_before.
Qed.

(** The condition text for one text-valued filter. *)
Lemma whereString_text_filter :
  forall column value : string,
    _whereString [(column, JStr value)]
    = Ok (" " ++ addColumnSuffix column ++ " = '" ++ value ++ "'").
Proof.
  intros column value. unfold _whereString. cbn [where_conditions].
  unfold where_condition. cbn [typeof js_to_string String.eqb Ascii.eqb Bool.eqb rbind].
  replace (" " ++ addColumnSuffix column ++ " = '" ++ value ++ "' AND ")
    with ((" " ++ addColumnSuffix column ++ " = '" ++ value ++ "'") ++ " AND ").
  2:{ rewrite !append_assoc. reflexivity. }
  set (body := " " ++ addColumnSuffix column ++ " = '" ++ value ++ "'").
  replace (body ++ " AND ") with ((body ++ " ") ++ "AND ") at 1
    by (rewrite append_assoc; reflexivity).
  rewrite endsWith_append.
  change 5%nat with (String.length " AND ").
  rewrite slice_off_append. reflexivity.
Qed.

(** The insert of [_write] binds the row: its text is the same for every row. *)
Lemma insert_text_ignores_row :
  forall (tableName : string) (cfg : TableCfg) (row row' : Json),
    sql (insert_of tableName cfg row) = sql (insert_of tableName cfg row')
    /\ params (insert_of tableName cfg row) = _serializeRow row cfg.
Proof. intros. split; reflexivity. Qed.

(** C6, as the code behaves: the select that [readRows] hands to the engine
    for a text filter carries the filter's value inside its SQL text, between
    single quotes and unescaped, and binds no parameter. *)
Theorem readRows_writes_filter_value_into_sql :
  forall (table column value : string) (w : World) (cfg : TableCfg),
    throwWhenTableDoesNotExist (db w) table = Ok tt ->
    throwWhenColumnDoesNotExist (db w) table [column] = Ok tt ->
    tableCfg (db w) table = Ok cfg ->
    trace (snd (_readRows table [(column, JStr value)] w))
    = (trace w
       ++ [mkStmt ("SELECT * FROM " ++ addTableSuffix table ++ " WHERE "
                     ++ addColumnSuffix column ++ " = '" ++ value ++ "'") []])%list.
Proof.
  intros table column value w cfg Hexists Hcols Hcfg.
  unfold _readRows, bind, check, all, lift, ret. cbv beta.
  rewrite Hexists. cbv beta iota.
  cbn [map fst]. rewrite Hcols. cbv beta iota.
  rewrite Hcfg. cbv beta iota.
  rewrite whereString_text_filter. cbv beta iota zeta.
  unfold log. cbn [db trace].
  destruct (db_all (db w) _ []) as [[|r rest]|e]; cbv beta iota.
  - reflexivity.
  - rewrite convertToReturn_nil. reflexivity.
  - reflexivity.
Qed.

(* ----------------------------------------------------------------- *)
(** *** The codec *)















(* ----------------------------------------------------------------- *)
(** *** Sparse rows *)








(* ----------------------------------------------------------------- *)
(** *** [_write] *)

Lemma run_unfold :
  forall (text : string) (ps : list JsonValue) (w : World),
    run text ps w
    = (snd (db_run (db w) text ps),
       mkWorld (fst (db_run (db w) text ps)) (trace w ++ [mkStmt text ps])).
Proof.
  intros text ps w. unfold run, log. destruct (db_run (db w) text ps). reflexivity.
Qed.

Lemma run_all_cons :
  forall (p : string * Stmt) (rest : list (string * Stmt)) (d : DB),
    run_all (p :: rest) d = run_all rest (fst (db_run d (sql (snd p)) (params (snd p)))).
Proof. reflexivity. Qed.

Lemma failures_cons :
  forall (tableName : string) (st : Stmt) (rest : list (string * Stmt)) (d : DB),
    failures ((tableName, st) :: rest) d
    = match snd (db_run d (sql st) (params st)) with
      | Ok _ => failures rest (fst (db_run d (sql st) (params st)))
      | Throw e =>
          ("Error inserting into table " ++ tableName ++ ": " ++ err_message e)
            :: failures rest (fst (db_run d (sql st) (params st)))
      end.
Proof.
  intros. cbn [failures]. destruct (db_run d (sql st) (params st)) as [d' [r|e]];
    reflexivity.
Qed.

Lemma run_all_app :
  forall (a b : list (string * Stmt)) (d : DB),
    run_all (a ++ b) d = run_all b (run_all a d).
Proof. intros a b d. unfold run_all. apply fold_left_app. Qed.

Lemma failures_app :
  forall (a b : list (string * Stmt)) (d : DB),
    failures (a ++ b) d = (failures a d ++ failures b (run_all a d))%list.
Proof.
  induction a as [|[name st] a IH]; intros b d.
  - reflexivity.
  - cbn [app]. rewrite !failures_cons, run_all_cons. cbn [snd].
    destruct (snd (db_run d (sql st) (params st))); rewrite IH; reflexivity.
Qed.

(** The rows of one table, when the engine reports no collision: every row
    is attempted, and the failures are appended to the store. *)
Lemma write_rows_attempts_all :
  forall (tableName : string) (cfg : TableCfg) (rows : list Json)
         (errorStore : list string) (w : World),
    let planned := map (fun row => (tableName, insert_of tableName cfg row)) rows in
    (forall (d : DB) (p : string * Stmt) (e : JsError),
        In p planned ->
        snd (db_run d (sql (snd p)) (params (snd p))) = Throw e ->
        is_primary_key_collision e = false) ->
    write_rows tableName cfg rows errorStore w
    = ((errorStore ++ failures planned (db w))%list,
       mkWorld (run_all planned (db w)) (trace w ++ map snd planned)).
Proof.
  intros tableName cfg rows. induction rows as [|row rows IH];
    intros errorStore w planned Hnopk.
  - cbn. rewrite !app_nil_r. destruct w; reflexivity.
  - subst planned. cbn [write_rows map].
    rewrite run_unfold.
    assert (Hrest : forall (d : DB) (p : string * Stmt) (e : JsError),
               In p (map (fun row => (tableName, insert_of tableName cfg row)) rows) ->
               snd (db_run d (sql (snd p)) (params (snd p))) = Throw e ->
               is_primary_key_collision e = false).
    { intros d p e Hin. apply Hnopk. right. exact Hin. }
    specialize (Hnopk (db w) (tableName, insert_of tableName cfg row)).
    cbn [snd fst insert_of sql params] in Hnopk.
    rewrite run_all_cons, failures_cons. cbn [snd insert_of sql params].
    destruct (db_run (db w) (insert_query tableName cfg) (_serializeRow row cfg))
      as [d' [r|e]] eqn:Erun; cbn [fst snd].
    + rewrite (IH errorStore _ Hrest). cbn [db trace].
      rewrite <- app_assoc. reflexivity.
    + rewrite (Hnopk e (or_introl eq_refl) eq_refl).
      rewrite (IH _ _ Hrest). cbn [db trace].
      unfold insert_error_message. rewrite <- !app_assoc. reflexivity.
Qed.

(** The database answers the same configurations after the planned inserts. *)
Lemma tableCfg_after :
  forall (allp planned : list (string * Stmt)) (d : DB) (name : string),
    (forall (d : DB) (p : string * Stmt) (name : string),
        In p allp ->
        tableCfg (fst (db_run d (sql (snd p)) (params (snd p)))) name = tableCfg d name) ->
    (forall p, In p planned -> In p allp) ->
    tableCfg (run_all planned d) name = tableCfg d name.
Proof.
  intros allp planned; induction planned as [|p planned IH]; intros d name Hstable Hincl.
  - reflexivity.
  - rewrite run_all_cons. rewrite IH; auto.
    + apply Hstable. apply Hincl. left. reflexivity.
    + intros q Hq. apply Hincl. right. exact Hq.
Qed.

Lemma in_plan_cons_left :
  forall (cfg_of : string -> TableCfg) (entry : string * TableType) (rest : Rljson)
         (p : string * Stmt),
    In p (map (fun row => (fst entry, insert_of (fst entry) (cfg_of (fst entry)) row))
              (_data (snd entry))) ->
    In p (plan cfg_of (entry :: rest)).
Proof. intros. unfold plan. cbn [flat_map]. apply in_or_app. left. assumption. Qed.

Lemma in_plan_cons_right :
  forall (cfg_of : string -> TableCfg) (entry : string * TableType) (rest : Rljson)
         (p : string * Stmt),
    In p (plan cfg_of rest) -> In p (plan cfg_of (entry :: rest)).
Proof. intros. unfold plan. cbn [flat_map]. apply in_or_app. right. assumption. Qed.

Lemma plan_cons :
  forall (cfg_of : string -> TableCfg) (name : string) (table : TableType)
         (rest : Rljson),
    plan cfg_of ((name, table) :: rest)
    = (map (fun row => (name, insert_of name (cfg_of name) row)) (_data table)
       ++ plan cfg_of rest)%list.
Proof. reflexivity. Qed.

(** All the tables of a request, under the same conditions. *)
Lemma iterateTables_attempts_all :
  forall (cfg_of : string -> TableCfg) (allp : list (string * Stmt))
         (tables : Rljson) (errorStore : list string) (w : World),
    (forall p, In p (plan cfg_of tables) -> In p allp) ->
    (forall name, In name (map fst tables) -> tableCfg (db w) name = Ok (cfg_of name)) ->
    (forall (d : DB) (p : string * Stmt) (name : string),
        In p allp ->
        tableCfg (fst (db_run d (sql (snd p)) (params (snd p)))) name = tableCfg d name) ->
    (forall (d : DB) (p : string * Stmt) (e : JsError),
        In p allp ->
        snd (db_run d (sql (snd p)) (params (snd p))) = Throw e ->
        is_primary_key_collision e = false) ->
    iterateTables tables errorStore w
    = (Ok (errorStore ++ failures (plan cfg_of tables) (db w))%list,
       mkWorld (run_all (plan cfg_of tables) (db w))
               (trace w ++ map snd (plan cfg_of tables))).
Proof.
  intros cfg_of allp tables. induction tables as [|[name table] tables IH];
    intros errorStore w Hincl Hcfg Hstable Hnopk.
  - cbn. rewrite !app_nil_r. destruct w; reflexivity.
  - cbn [iterateTables]. unfold bind, write_table at 1, bind, check.
    rewrite (Hcfg name (or_introl eq_refl)). cbv beta iota.
    set (here := map (fun row => (name, insert_of name (cfg_of name) row)) (_data table)).
    assert (Hhere : forall p, In p here -> In p allp).
    { intros p Hp. apply Hincl. apply (in_plan_cons_left cfg_of (name, table)). exact Hp. }
    rewrite (write_rows_attempts_all name (cfg_of name) (_data table) errorStore w).
    2:{ intros d p e Hp. apply Hnopk. apply Hhere. exact Hp. }
    fold here. cbv beta iota zeta.
    rewrite IH.
    + cbn [db trace]. rewrite plan_cons. fold here.
      rewrite failures_app, run_all_app, map_app, <- !app_assoc. reflexivity.
    + intros p Hp. apply Hincl. apply in_plan_cons_right. exact Hp.
    + intros n Hn. cbn [db].
      rewrite (tableCfg_after allp here (db w) n Hstable Hhere).
      apply Hcfg. right. exact Hn.
    + exact Hstable.
    + exact Hnopk.
Qed.

(** [_write] as a run of its plan. *)
Lemma write_by_plan :
  forall (data : Rljson) (w : World) (cfg_of : string -> TableCfg),
    let planned := plan cfg_of (hsh data) in
    throwWhenTablesDoNotExist (db w) data = Ok tt ->
    throwWhenTableDataDoesNotMatchCfg (db w) data = Ok tt ->
    (forall name, In name (map fst (hsh data)) -> tableCfg (db w) name = Ok (cfg_of name)) ->
    (forall (d : DB) (p : string * Stmt) (name : string),
        In p planned ->
        tableCfg (fst (db_run d (sql (snd p)) (params (snd p)))) name = tableCfg d name) ->
    (forall (d : DB) (p : string * Stmt) (e : JsError),
        In p planned ->
        snd (db_run d (sql (snd p)) (params (snd p))) = Throw e ->
        is_primary_key_collision e = false) ->
    _write data w
    = (match failures planned (db w) with
       | [] => Ok tt
       | errors => Throw (aggregate_error errors)
       end,
       mkWorld (run_all planned (db w)) (trace w ++ map snd planned)).
Proof.
  intros data w cfg_of planned Hexist Hmatch Hcfg Hstable Hnopk.
  unfold _write, bind, check. rewrite Hexist. cbv beta iota.
  rewrite Hmatch. cbv beta iota.
  rewrite (iterateTables_attempts_all cfg_of planned (hsh data) [] w
             (fun p H => H) Hcfg Hstable Hnopk).
  fold planned. cbn [app].
  destruct (failures planned (db w)) as [|m ms]; reflexivity.
Qed.

(** C3: when the checks have passed, and as long as the engine reports no
    insert as a primary-key collision, [write] attempts the insert of every
    row of every table in order, whatever fails, and issues nothing else; the
    database is left as the inserts leave it one after the other, nothing
    being rolled back; the call succeeds if no insert failed, and otherwise
    throws, once and at the end, one error whose message lists the message of
    every failed insert. *)
Theorem write_accumulates_errors :
  forall (data : Rljson) (w : World) (cfg_of : string -> TableCfg),
    let planned := plan cfg_of (hsh data) in
    throwWhenTablesDoNotExist (db w) data = Ok tt ->
    throwWhenTableDataDoesNotMatchCfg (db w) data = Ok tt ->
    (forall name, In name (map fst (hsh data)) -> tableCfg (db w) name = Ok (cfg_of name)) ->
    (forall (d : DB) (p : string * Stmt) (name : string),
        In p planned ->
        tableCfg (fst (db_run d (sql (snd p)) (params (snd p)))) name = tableCfg d name) ->
    (forall (d : DB) (p : string * Stmt) (e : JsError),
        In p planned ->
        snd (db_run d (sql (snd p)) (params (snd p))) = Throw e ->
        is_primary_key_collision e = false) ->
    trace (snd (_write data w)) = (trace w ++ map snd planned)%list
    /\ db (snd (_write data w)) = run_all planned (db w)
    /\ (failures planned (db w) = [] -> fst (_write data w) = Ok tt)
    /\ (failures planned (db w) <> [] ->
        fst (_write data w)
        = Throw (Error_ ("Errors occurred: " ++ join ", " (failures planned (db w))))).
Proof.
  intros data w cfg_of planned Hexist Hmatch Hcfg Hstable Hnopk.
  pose proof (write_by_plan data w cfg_of Hexist Hmatch Hcfg Hstable Hnopk) as H.
  fold planned in H. rewrite H. cbn [fst snd db trace].
  split; [reflexivity|]. split; [reflexivity|]. split.
  - intros Hnone. rewrite Hnone. reflexivity.
  - intros Hsome. destruct (failures planned (db w)) as [|m ms].
    + contradiction Hsome. reflexivity.
    + reflexivity.
Qed.

(* ----------------------------------------------------------------- *)
(** *** Writing twice *)








(* ----------------------------------------------------------------- *)
(** *** [_createOrExtendTable] *)





End Properties.

(* ----------------------------------------------------------------- *)
(** *** [NodeSQLite.transaction] *)

Section WrapperProperties.
Context {EN : Engine}.
Import NodeSQLite.

Lemma execute_open :
  forall (text : string) (ps : list JsonValue) (s : t) (d : DB),
    db s = Some d ->
    execute text ps s
    = (snd (db_run d text ps),
       mk (Some (fst (db_run d text ps))) (dbPath s)
          (issued s ++ [mkStmt text ps])).
Proof.
  intros text ps s d Hd. unfold execute. rewrite Hd.
  destruct (db_run d text ps); reflexivity.
Qed.

Lemma execute_closed :
  forall (text : string) (ps : list JsonValue) (s : t),
    db s = None -> execute text ps s = (Throw not_open, s).
Proof. intros text ps s Hd. unfold execute. rewrite Hd. reflexivity. Qed.

(** A statement that succeeded was handed to the engine, last. *)
Lemma execute_ok :
  forall (text : string) (ps : list JsonValue) (s s' : t) (r : RunResult),
    execute text ps s = (Ok r, s') ->
    issued s' = (issued s ++ [mkStmt text ps])%list
    /\ exists d, db s = Some d /\ db s' = Some (fst (db_run d text ps)).
Proof.
  intros text ps s s' r H. destruct (db s) as [d|] eqn:Hd.
  - rewrite (execute_open _ _ _ _ Hd) in H. inversion H; subst s'.
    split; [reflexivity|]. exists d. split; reflexivity.
  - rewrite (execute_closed _ _ _ Hd) in H. discriminate.
Qed.

(** C10, as amended: on an open database [transaction(fn)] hands BEGIN
    TRANSACTION to the engine before it runs [fn], and does not run [fn] when
    BEGIN fails; when [fn] returns normally COMMIT is executed next, and if
    COMMIT succeeds [fn]'s result is returned; when [fn] throws ROLLBACK is
    executed next, and if ROLLBACK succeeds the same error is rethrown with
    the database in the state the engine's ROLLBACK leaves; when COMMIT
    fails ROLLBACK is executed and, if it succeeds, COMMIT's error is thrown;
    and when ROLLBACK fails its own error is the one thrown.  On a closed
    database the call throws before any statement. *)
Theorem transaction_outcomes :
  forall (T : Type) (fn : N T) (s : t),
    (db s = None -> transaction fn s = (Throw not_open, s))
    /\ (forall d : DB,
          db s = Some d ->
          let begun := execute "BEGIN TRANSACTION" [] s in
          issued (snd begun) = (issued s ++ [mkStmt "BEGIN TRANSACTION" []])%list
          /\ (forall e, fst begun = Throw e -> transaction fn s = (Throw e, snd begun))
          /\ (forall r0, fst begun = Ok r0 ->
               (forall result s2 r s3,
                   fn (snd begun) = (Ok result, s2) ->
                   execute "COMMIT" [] s2 = (Ok r, s3) ->
                   transaction fn s = (Ok result, s3)
                   /\ issued s3 = (issued s2 ++ [mkStmt "COMMIT" []])%list)
               /\ (forall error s2 r s3,
                     fn (snd begun) = (Throw error, s2) ->
                     execute "ROLLBACK" [] s2 = (Ok r, s3) ->
                     transaction fn s = (Throw error, s3)
                     /\ issued s3 = (issued s2 ++ [mkStmt "ROLLBACK" []])%list
                     /\ exists d2, db s2 = Some d2
                                   /\ db s3 = Some (fst (db_run d2 "ROLLBACK" [])))
               /\ (forall result s2 e s3 r s4,
                     fn (snd begun) = (Ok result, s2) ->
                     execute "COMMIT" [] s2 = (Throw e, s3) ->
                     execute "ROLLBACK" [] s3 = (Ok r, s4) ->
                     transaction fn s = (Throw e, s4))
               /\ (forall result s2 e s3 e' s4,
                     fn (snd begun) = (Ok result, s2) ->
                     execute "COMMIT" [] s2 = (Throw e, s3) ->
                     execute "ROLLBACK" [] s3 = (Throw e', s4) ->
                     transaction fn s = (Throw e', s4))
               /\ (forall error s2 e' s3,
                     fn (snd begun) = (Throw error, s2) ->
                     execute "ROLLBACK" [] s2 = (Throw e', s3) ->
                     transaction fn s = (Throw e', s3)))).
Proof.
  intros T fn s. split.
  - intros Hd. unfold transaction. rewrite Hd. reflexivity.
  - intros d Hd begun.
    assert (Htx : transaction fn s
                  = seq (execute "BEGIN TRANSACTION" []) (fun _ =>
                      try_catch
                        (seq fn (fun result =>
                           seq (execute "COMMIT" []) (fun _ =>
                             fun s' => (Ok result, s'))))
                        (fun error =>
                           seq (execute "ROLLBACK" []) (fun _ =>
                             fun s' => (Throw error, s')))) s).
    { unfold transaction. rewrite Hd. reflexivity. }
    split.
    { subst begun. rewrite (execute_open _ _ _ _ Hd). reflexivity. }
    split.
    { intros e He. rewrite Htx. unfold seq at 1. fold begun.
      destruct begun as [[r0|e0] s1]; simpl in He; inversion He. reflexivity. }
    intros r0 Hr0.
    assert (Hrun : forall body : N T,
               seq (execute "BEGIN TRANSACTION" []) (fun _ => body) s = body (snd begun)).
    { intros body. unfold seq. fold begun.
      destruct begun as [[r1|e1] s1]; simpl in Hr0; inversion Hr0. reflexivity. }
    rewrite Htx, Hrun. unfold try_catch, seq.
    repeat split.
    + rewrite H, H0. reflexivity.
    + apply (execute_ok _ _ _ _ _ H0).
    + rewrite H, H0. reflexivity.
    + apply (execute_ok _ _ _ _ _ H0).
    + apply (execute_ok _ _ _ _ _ H0).
    + intros result s2 e s3 r s4 Hfn Hc Hr. rewrite Hfn, Hc, Hr. reflexivity.
    + intros result s2 e s3 e' s4 Hfn Hc Hr. rewrite Hfn, Hc, Hr. reflexivity.
    + intros error s2 e' s3 Hfn Hr. rewrite Hfn, Hr. reflexivity.
Qed.

End WrapperProperties.

(* ================================================================= *)
(** ** Further properties of the facade *)

Section MoreProperties.
Context {NM : NameMapping} {EN : Engine} {SQ : SqlStatements}
        {HS : Hashing} {IO : IoTools}.

(* ----------------------------------------------------------------- *)
(** *** What [_serializeRow] hands to the engine *)



(* ----------------------------------------------------------------- *)
(** *** Encoding a row and decoding it again *)







(* ----------------------------------------------------------------- *)
(** *** The text of a filter *)

Lemma where_condition_defined :
  forall (column : string) (value : JsonValue),
    is_defined value = true ->
    where_condition column value = Ok (condition_text (column, value) ++ " AND ").
Proof.
  intros column value Hdef. unfold where_condition, condition_text. cbn [fst snd].
  destruct value as [| |[|]|n|t|bs|items|fields]; try discriminate;
    cbn [typeof String.eqb Ascii.eqb Bool.eqb is_null truthy js_to_string];
    f_equal; rewrite !append_assoc; reflexivity.
Qed.



(** X4: a filter with an [undefined] value is refused: [_whereString] throws
    the unsupported-value error that names the first such column. *)
Theorem whereString_refuses_undefined :
  forall (before after : list (string * JsonValue)) (column : string),
    forallb (fun cv => is_defined (snd cv)) before = true ->
    _whereString (before ++ (column, JUndefined) :: after)
    = Throw (Error_ ("Unsupported value type for column " ++ column)).
Proof.
  intros before after column Hdef. unfold _whereString.
  assert (H : forall acc,
             where_conditions (before ++ (column, JUndefined) :: after) acc
             = Throw (Error_ ("Unsupported value type for column " ++ column))).
  { induction before as [|[c v] before IH]; intros acc.
    - reflexivity.
    - cbn [forallb snd] in Hdef. apply andb_prop in Hdef. destruct Hdef as [Hv Hrest].
      cbn [app where_conditions]. rewrite (where_condition_defined c v Hv). cbn [rbind].
      apply IH. exact Hrest. }
  rewrite H. reflexivity.
Qed.


(* ----------------------------------------------------------------- *)
(** *** Checks come first *)

(** X6: when a check of [IoTools] refuses the request, [rowCount],
    [_dumpTable] and [_readRows] throw the check's error and the engine is
    asked nothing; [_readRows] also asks nothing when the filter holds an
    [undefined] value. *)
Theorem reads_check_first :
  forall (table : string) (where_ : Json) (w : World) (e : JsError),
    (throwWhenTableDoesNotExist (db w) table = Throw e ->
     rowCount table w = (Throw e, w)
     /\ _dumpTable table w = (Throw e, w)
     /\ _readRows table where_ w = (Throw e, w))
    /\ (throwWhenTableDoesNotExist (db w) table = Ok tt ->
        tableCfg (db w) table = Throw e ->
        _dumpTable table w = (Throw e, w))
    /\ (throwWhenTableDoesNotExist (db w) table = Ok tt ->
        throwWhenColumnDoesNotExist (db w) table (map fst where_) = Throw e ->
        _readRows table where_ w = (Throw e, w))
    /\ (forall cfg : TableCfg,
          throwWhenTableDoesNotExist (db w) table = Ok tt ->
          throwWhenColumnDoesNotExist (db w) table (map fst where_) = Ok tt ->
          tableCfg (db w) table = Ok cfg ->
          _whereString where_ = Throw e ->
          _readRows table where_ w = (Throw e, w)).
Proof.
  intros table where_ w e. split; [|split; [|split]].
  - intros H. unfold rowCount, _dumpTable, _readRows, bind, check.
    rewrite H. repeat split.
  - intros H1 H2. unfold _dumpTable, bind, check. rewrite H1. cbv beta iota.
    rewrite H2. reflexivity.
  - intros H1 H2. unfold _readRows, bind, check. rewrite H1. cbv beta iota.
    rewrite H2. reflexivity.
  - intros cfg H1 H2 H3 H4. unfold _readRows, bind, check, lift.
    rewrite H1. cbv beta iota. rewrite H2. cbv beta iota.
    rewrite H3. cbv beta iota. rewrite H4. reflexivity.
Qed.

(** X7: [_write] validates the whole request before the first insert: when
    a table of the request does not exist, or its data does not match its
    configuration, the call throws that error and nothing is written, not
    even the rows of the tables that are in order. *)
Theorem write_checks_first :
  forall (data : Rljson) (w : World) (e : JsError),
    (throwWhenTablesDoNotExist (db w) data = Throw e -> _write data w = (Throw e, w))
    /\ (throwWhenTablesDoNotExist (db w) data = Ok tt ->
        throwWhenTableDataDoesNotMatchCfg (db w) data = Throw e ->
        _write data w = (Throw e, w)).
Proof.
  intros data w e. split.
  - intros H. unfold _write, bind, check. rewrite H. reflexivity.
  - intros H1 H2. unfold _write, bind, check. rewrite H1. cbv beta iota.
    rewrite H2. reflexivity.
Qed.

(** X8: in the row loop of [_write], an insert that fails with the collision
    code ends the loop for that table: the rows before it have been attempted,
    the rows after it are not, and the error is not recorded. *)
Theorem collision_ends_the_table :
  forall (tableName : string) (cfg : TableCfg) (row : Json) (rest : list Json)
         (errorStore : list string) (w : World) (e : JsError),
    snd (db_run (db w) (insert_query tableName cfg) (_serializeRow row cfg)) = Throw e ->
    err_code e = Some "SQLITE_CONSTRAINT_PRIMARYKEY" ->
    write_rows tableName cfg (row :: rest) errorStore w
    = (errorStore,
       mkWorld (fst (db_run (db w) (insert_query tableName cfg) (_serializeRow row cfg)))
               (trace w ++ [mkStmt (insert_query tableName cfg) (_serializeRow row cfg)])).
Proof.
  intros tableName cfg row rest errorStore w e Hrun Hcode.
  cbn [write_rows]. rewrite run_unfold, Hrun.
  unfold is_primary_key_collision. rewrite Hcode. reflexivity.
Qed.

(* ----------------------------------------------------------------- *)
(** *** Changing the schema *)

(** X9: [_extendTable] compares the numbers of columns only: a
    configuration with no more columns than the stored one changes nothing
    and succeeds, whatever its columns are. *)
Theorem extendTable_counts_columns :
  forall (newTableCfg stored : TableCfg) (w : World),
    tableCfg (db w) (key newTableCfg) = Ok stored ->
    (List.length (columns newTableCfg) <= List.length (columns stored))%nat ->
    _extendTable newTableCfg w = (Ok tt, w).
Proof.
  intros newTableCfg stored w Hstored Hlen.
  unfold _extendTable, bind, check. rewrite Hstored. cbv beta iota.
  rewrite skipn_all2 by exact Hlen. reflexivity.
Qed.

(** X10: [_createTable] inserts into the registry first.  When that insert
    fails the table is not created; when the creation fails afterwards the
    error is thrown and no further statement follows, so the registry entry
    stays. *)
Theorem createTable_registry_first :
  forall (tableCfgHashed requested : TableCfg) (w : World),
    let entry :=
      [JStr (Array_join ", "
               (_serializeRow (TableCfg_json (hip_cfg tableCfgHashed)) tableCfgsTableCfg))] in
    let inserted := db_run (db w) sql_insertTableCfg entry in
    let created := db_exec (fst inserted) (sql_createTable requested) in
    (forall e, snd inserted = Throw e ->
       _createTable tableCfgHashed requested w
       = (Throw e, mkWorld (fst inserted) (trace w ++ [mkStmt sql_insertTableCfg entry])))
    /\ (forall r, snd inserted = Ok r ->
         _createTable tableCfgHashed requested w
         = (snd created,
            mkWorld (fst created)
              (trace w ++ [mkStmt sql_insertTableCfg entry;
                           mkStmt (sql_createTable requested) []]))).
Proof.
  intros tableCfgHashed requested w entry inserted created.
  subst created inserted entry.
  unfold _createTable, _insertTableCfg, bind, ret.
  rewrite run_unfold. cbv zeta.
  split.
  - intros e He. rewrite He. reflexivity.
  - intros r Hr. rewrite Hr. cbv beta iota.
    unfold exec, log. cbn [db trace].
    destruct (db_exec _ (sql_createTable requested)) as [d2 r2]. cbn [fst snd].
    rewrite <- app_assoc. reflexivity.
Qed.

(* ----------------------------------------------------------------- *)
(** *** Reading the registry *)

(** X11: [rawTableCfgs] returns the empty list whenever the engine answers
    its select, whatever rows the answer holds, and throws the engine's
    error otherwise. *)
Theorem rawTableCfgs_is_empty :
  forall (w : World),
    fst (rawTableCfgs w)
    = match db_all (db w) sql_tableCfgs [] with
      | Ok _ => Ok []
      | Throw e => Throw e
      end.
Proof.
  intros w. unfold rawTableCfgs, bind, all, lift.
  destruct (db_all (db w) sql_tableCfgs []) as [rows|e]; cbv beta iota.
  - rewrite convertToReturn_nil. reflexivity.
  - reflexivity.
Qed.

(** X12: [_dump] never returns a dump: when the engine answers the select
    of the table keys the list of names is [undefined] and the loop over it
    throws a TypeError, and otherwise the engine's error is thrown; no table
    is read either way. *)
Theorem dump_always_throws :
  forall (addMissingHashes : Rljson -> Rljson) (w : World),
    _dump addMissingHashes w
    = (match db_all (db w) sql_tableKeys [] with
       | Ok _ => Throw (TypeError "tableNames is not iterable")
       | Throw e => Throw e
       end,
       mkWorld (db w) (trace w ++ [mkStmt sql_tableKeys []])).
Proof.
  intros addMissingHashes w. unfold _dump, bind, all, lift, throw, log.
  destruct (db_all (db w) sql_tableKeys []) as [rows|e]; cbv beta iota.
  - rewrite convertToReturn_nil. reflexivity.
  - reflexivity.
Qed.

(** X13: [contentType] reads property 0 of the row: it returns [undefined]
    when the engine finds no row and whenever the row it finds has no column
    named 0, whatever the row holds. *)
Theorem contentType_is_undefined :
  forall (table : string) (w : World) (found : option SqlRow),
    db_get (db w) sql_contentType [JStr table] = Ok found ->
    (forall row, found = Some row -> ~ In "0" (map fst row)) ->
    fst (contentType table w) = Ok JUndefined.
Proof.
  intros table w found Hget Hno. unfold contentType, bind, get, ret.
  rewrite Hget. cbv beta iota. cbn [fst].
  destruct found as [row|]; [|reflexivity].
  specialize (Hno row eq_refl). f_equal. clear Hget.
  induction row as [|[k v] row IH]; [reflexivity|].
  cbn [row_to_js map fst snd obj_get].
  destruct (String.eqb_spec k "0") as [->|_].
  - exfalso. apply Hno. left. reflexivity.
  - apply IH. intros Hin. apply Hno. right. exact Hin.
Qed.

End MoreProperties.

(* ================================================================= *)
(** ** Further properties of [NodeSQLite] *)

Section MoreWrapperProperties.
Context {EN : Engine}.
Variable connect : string -> DB.
Variable all_rows : DB -> string -> list JsonValue -> DB * Result (list SqlRow).
Variable first_row : DB -> string -> list JsonValue -> DB * Result (option SqlRow).
Import NodeSQLite.


(** X15: on a closed wrapper [execute], [query], [queryOne], [close] and
    [transaction] all throw 'Database is not open'; nothing reaches the
    engine, the callback of [transaction] is not run and the wrapper stays
    as it is. *)
Theorem closed_wrapper_refuses :
  forall (s : t),
    db s = None ->
    (forall text ps, execute text ps s = (Throw not_open, s))
    /\ (forall text ps, query all_rows text ps s = (Throw not_open, s))
    /\ (forall text ps, queryOne first_row text ps s = (Throw not_open, s))
    /\ close s = (Throw not_open, s)
    /\ (forall (T : Type) (fn : N T), transaction fn s = (Throw not_open, s)).
Proof.
  intros s Hd. repeat split; intros;
    unfold execute, query, queryOne, close, transaction; rewrite Hd; reflexivity.
Qed.



(** X17: transactions do not nest.  The inner [transaction] sends a second
    BEGIN TRANSACTION; when the engine refuses it, the callback is not run,
    the outer call rolls back, and the engine's error is the one thrown. *)
Theorem nested_transaction_is_refused :
  forall (T : Type) (fn : N T) (s : t) (d d1 d2 d3 : DB) (r1 r3 : RunResult)
         (e : JsError),
    db s = Some d ->
    db_run d "BEGIN TRANSACTION" [] = (d1, Ok r1) ->
    db_run d1 "BEGIN TRANSACTION" [] = (d2, Throw e) ->
    db_run d2 "ROLLBACK" [] = (d3, Ok r3) ->
    transaction (transaction fn) s
    = (Throw e,
       mk (Some d3) (dbPath s)
          (issued s ++ [mkStmt "BEGIN TRANSACTION" []; mkStmt "BEGIN TRANSACTION" [];
                        mkStmt "ROLLBACK" []])).
Proof.
  intros T fn s d d1 d2 d3 r1 r3 e Hd Hb1 Hb2 Hrb.
  destruct s as [conn p l]. cbn [db] in Hd. subst conn. cbn [dbPath issued].
  unfold transaction at 1. cbn [db]. unfold seq at 1, execute at 1. cbn [db].
  rewrite Hb1. cbv beta iota. cbn [dbPath issued].
  unfold try_catch, seq at 1.
  unfold transaction. cbn [db]. unfold seq at 1, execute at 1. cbn [db].
  rewrite Hb2. cbv beta iota. cbn [dbPath issued].
  unfold seq, execute. cbn [db].
  rewrite Hrb. cbv beta iota. cbn [dbPath issued].
  rewrite <- !app_assoc. reflexivity.
Qed.

End MoreWrapperProperties.

(* ================================================================= *)
(** ** The scenario, evaluated *)

Import Memory.

Lemma dumpTable_returns_no_rows_witness :
  map tbl_rows (tables (db written))
  = [[[SqlNumber 1; SqlText "Alice"]; [SqlNumber 2; SqlText "Bob"]]]
  /\ fst (_dumpTable "users" written)
     = Ok [("users", mkTable "components" [] (Some "cfg-hash-1") (Some ""))].
Proof.
  split.
  - vm_compute. reflexivity.
  - exact (dumpTable_returns_no_rows "users" written users_cfg
             [[("id_col", SqlNumber 1); ("name_col", SqlText "Alice")];
              [("id_col", SqlNumber 2); ("name_col", SqlText "Bob")]]
             eq_refl eq_refl eq_refl).
Defined.

Lemma rowCount_returns_zero_witness :
  db_all (db written) (sql_rowCount "users") [] = Ok [[("COUNT(*)", SqlNumber 2)]]
  /\ fst (rowCount "users" written) = Ok (Finite 0).
Proof.
  split.
  - vm_compute. reflexivity.
  - exact (rowCount_returns_zero "users" written [[("COUNT(*)", SqlNumber 2)]]
             eq_refl eq_refl eq_refl).
Defined.

Lemma readRows_returns_no_rows_witness :
  db_all (db written) "SELECT * FROM users_tbl WHERE name_col = 'Alice'" []
  = Ok [[("id_col", SqlNumber 1); ("name_col", SqlText "Alice")]]
  /\ fst (_readRows "users" [("name", JStr "Alice")] written)
     = Ok [("users", mkTable "components" [] None None)].
Proof.
  split.
  - vm_compute. reflexivity.
  - exact (readRows_returns_no_rows "users" [("name", JStr "Alice")] written users_cfg
             " name_col = 'Alice'"
             [[("id_col", SqlNumber 1); ("name_col", SqlText "Alice")]]
             eq_refl eq_refl eq_refl eq_refl eq_refl).
Defined.

(** C6 at a filter whose text value carries a quote: the value's text
    becomes part of the statement, here a second condition. *)
Lemma readRows_writes_filter_value_into_sql_witness :
  trace (snd (_readRows "users" [("name", JStr "x' OR '1'='1")] written))
  = (trace written
     ++ [mkStmt "SELECT * FROM users_tbl WHERE name_col = 'x' OR '1'='1'" []])%list.
Proof.
  exact (readRows_writes_filter_value_into_sql "users" "name" "x' OR '1'='1" written
           users_cfg eq_refl eq_refl eq_refl).
Defined.

(** The parser reads back what the printer writes, on a document with every
    kind of value. *)
Lemma JSON_parse_stringify_sample :
  JSON_parse (stringify_text sample_doc) = Ok sample_doc.
Proof. reflexivity. Qed.





(** C10 as stated fails: a callback that closes the connection and then
    throws makes [transaction] throw the wrapper's own error instead of the
    callback's, and ROLLBACK never reaches the engine. *)
Lemma transaction_replaces_the_error :
  fst (NodeSQLite.transaction close_then_throw connection) = Throw NodeSQLite.not_open
  /\ NodeSQLite.not_open <> boom
  /\ NodeSQLite.issued (snd (NodeSQLite.transaction close_then_throw connection))
     = [mkStmt "BEGIN TRANSACTION" []].
Proof.
  split; [reflexivity|]. split; [discriminate | reflexivity].
Qed.

(** A callback that ends the transaction itself and then throws: ROLLBACK
    fails, its error is the one thrown, and the inserted row stays. *)
Lemma transaction_after_inner_commit :
  fst (NodeSQLite.transaction commit_then_throw connection)
  = Throw (sqlite_error "cannot rollback - no transaction is active")
  /\ option_map (fun d => map tbl_rows (tables d))
       (NodeSQLite.db (snd (NodeSQLite.transaction commit_then_throw connection)))
     = Some [[[SqlNumber 3; SqlText "Carol"]]].
Proof. split; reflexivity. Qed.

Lemma transaction_outcomes_witness :
  fst (NodeSQLite.transaction insert_then_throw connection) = Throw boom
  /\ option_map tables
       (NodeSQLite.db (snd (NodeSQLite.transaction insert_then_throw connection)))
     = Some (tables fresh_db)
  /\ fst (NodeSQLite.transaction insert_then_return connection) = Ok 1.
Proof.
  pose proof (transaction_outcomes unit insert_then_throw connection) as [_ Hthrow].
  pose proof (transaction_outcomes Z insert_then_return connection) as [_ Hreturn].
  specialize (Hthrow fresh_db eq_refl). specialize (Hreturn fresh_db eq_refl).
  cbv zeta in Hthrow, Hreturn.
  destruct Hthrow as [_ [_ Hthrow]]. destruct Hreturn as [_ [_ Hreturn]].
  specialize (Hthrow (mkRunResult 0 0) eq_refl).
  specialize (Hreturn (mkRunResult 0 0) eq_refl).
  destruct Hthrow as [_ [Hthrow _]]. destruct Hreturn as [Hreturn _].
  split; [|split].
  - rewrite (proj1 (Hthrow boom _ _ _ eq_refl eq_refl)). reflexivity.
  - rewrite (proj1 (Hthrow boom _ _ _ eq_refl eq_refl)). reflexivity.
  - rewrite (proj1 (Hreturn 1 _ _ _ eq_refl eq_refl)). reflexivity.
Defined.

(* ----------------------------------------------------------------- *)
(** *** The memory engine honours INSERT OR IGNORE *)












Lemma mem_run_keeps_registry :
  forall (d : MemDB) (text : string) (ps : list JsonValue),
    registered (fst (mem_run d text ps)) = registered d.
Proof.
  intros d text ps. unfold mem_run.
  repeat match goal with
         | |- context [if ?b then _ else _] => destruct b
         | |- context [match ?x with _ => _ end] => destruct x
         end; reflexivity.
Qed.

Lemma mem_tableCfg_stable :
  forall (d : MemDB) (text : string) (ps : list JsonValue) (name : string),
    mem_tableCfg (fst (mem_run d text ps)) name = mem_tableCfg d name.
Proof.
  intros. unfold mem_tableCfg, find_cfg. rewrite mem_run_keeps_registry. reflexivity.
Qed.

Lemma mem_run_never_reports_collision :
  forall (d : MemDB) (text : string) (ps : list JsonValue) (e : JsError),
    snd (mem_run d text ps) = Throw e -> is_primary_key_collision e = false.
Proof.
  intros d text ps e. unfold mem_run.
  repeat match goal with
         | |- context [if ?b then _ else _] => destruct b
         | |- context [match ?x with _ => _ end] => destruct x
         end; cbn [snd]; intros H; inversion H; reflexivity.
Qed.




(** Two inserts fail, the two that follow them are made all the same, and
    the call throws once, with both messages. *)
Lemma write_accumulates_errors_witness :
  fst (_write mixed_data haunted)
  = Throw (Error_ ("Errors occurred: Error inserting into table ghosts: no such table, "
                     ++ "Error inserting into table ghosts: no such table"))
  /\ map tbl_rows (tables (db (snd (_write mixed_data haunted))))
     = [[[SqlNumber 1; SqlText "Alice"]; [SqlNumber 2; SqlText "Bob"]]]
  /\ map params (trace (snd (_write mixed_data haunted)))
     = [[JNum 7]; [JNum 8]; [JNum 1; JStr "Alice"]; [JNum 2; JStr "Bob"]].
Proof.
  pose proof (write_accumulates_errors mixed_data haunted cfg_by_name) as H.
  cbv zeta in H.
  assert (Hcfg : forall name, In name (map fst (hsh mixed_data)) ->
                              tableCfg (db haunted) name = Ok (cfg_by_name name)).
  { intros name [<-|[<-|[]]]; reflexivity. }
  specialize (H eq_refl eq_refl Hcfg
                (fun d p name _ => mem_tableCfg_stable d _ _ name)
                (fun d p e _ => mem_run_never_reports_collision d _ _ e)).
  destruct H as [Htrace [Hdb [_ Hthrow]]].
  rewrite (Hthrow ltac:(discriminate)).
  destruct (snd (_write mixed_data haunted)) as [d t]. cbn [db trace] in *.
  subst d t. repeat split.
Defined.


(* ----------------------------------------------------------------- *)
(** *** The further properties, evaluated *)




Lemma whereString_refuses_undefined_witness :
  _whereString [("name", JStr "Alice"); ("id", JUndefined); ("note", JUndefined)]
  = Throw (Error_ "Unsupported value type for column id").
Proof.
  exact (whereString_refuses_undefined [("name", JStr "Alice")] [("note", JUndefined)]
           "id" eq_refl).
Defined.


Lemma reads_check_first_witness :
  rowCount "strangers" written = (Throw (table_not_found "strangers"), written)
  /\ _dumpTable "strangers" written = (Throw (table_not_found "strangers"), written)
  /\ _readRows "users" [("age", JNum 3)] written = (Throw (column_not_found "age"), written).
Proof.
  destruct (reads_check_first "strangers" [] written (table_not_found "strangers"))
    as [Htable _].
  destruct (reads_check_first "users" [("age", JNum 3)] written (column_not_found "age"))
    as [_ [_ [Hcolumn _]]].
  destruct (Htable eq_refl) as [Hcount [Hdump _]].
  split; [exact Hcount|]. split; [exact Hdump|].
  exact (Hcolumn eq_refl eq_refl).
Defined.

Lemma write_checks_first_witness :
  _write stray_data fresh = (Throw (table_not_found "strangers"), fresh).
Proof.
  exact (proj1 (write_checks_first stray_data fresh (table_not_found "strangers"))
           eq_refl).
Defined.

(** Alice collides and Bob, who is not stored, is never attempted. *)
Lemma collision_ends_the_table_witness :
  write_rows (EN := Strict.engine) "users" users_cfg [alice; bob] [] Strict.with_alice
  = ([], mkWorld (EN := Strict.engine) (db Strict.with_alice)
           [mkStmt "INSERT OR IGNORE INTO users_tbl (id_col, name_col) VALUES (?, ?)"
              [JNum 1; JStr "Alice"]]).
Proof.
  exact (collision_ends_the_table (EN := Strict.engine) "users" users_cfg alice [bob] []
           Strict.with_alice Strict.collision eq_refl eq_refl).
Defined.

(** The same number of columns in another order changes nothing here. *)
Lemma extendTable_counts_columns_witness :
  _extendTable users_reordered fresh = (Ok tt, fresh).
Proof.
  apply (extendTable_counts_columns users_reordered users_cfg fresh).
  - reflexivity.
  - cbn. lia.
Defined.

Lemma createTable_registry_first_witness :
  _createTable (EN := Strict.engine) (IO := Strict.tools) docs_cfg docs_cfg
    Strict.with_entry
  = (Throw Strict.collision,
     mkWorld (EN := Strict.engine) (db Strict.with_entry)
       [persist (EN := Strict.engine) (IO := Strict.tools) docs_cfg])
  /\ _createTable (EN := Strict.engine) (IO := Strict.tools) docs_cfg docs_cfg
       Strict.with_table
     = (Throw Strict.already_exists,
        mkWorld (EN := Strict.engine)
          (db Strict.with_table
           ++ [persist (EN := Strict.engine) (IO := Strict.tools) docs_cfg])%list
          [persist (EN := Strict.engine) (IO := Strict.tools) docs_cfg;
           mkStmt "CREATE TABLE docs_tbl (doc_col TEXT)" []]).
Proof.
  destruct (createTable_registry_first (EN := Strict.engine) (IO := Strict.tools)
              docs_cfg docs_cfg Strict.with_entry) as [Hfirst _].
  destruct (createTable_registry_first (EN := Strict.engine) (IO := Strict.tools)
              docs_cfg docs_cfg Strict.with_table) as [_ Hsecond].
  split.
  - exact (Hfirst Strict.collision eq_refl).
  - exact (Hsecond (mkRunResult 1 2) eq_refl).
Defined.

Lemma contentType_is_undefined_witness :
  fst (contentType (EN := Strict.engine) "users" Strict.with_alice) = Ok JUndefined.
Proof.
  apply (contentType_is_undefined (EN := Strict.engine) "users" Strict.with_alice
           (Some [("type_col", SqlText "components")]) eq_refl).
  intros row Hrow. inversion Hrow; subst row. cbn. intuition discriminate.
Defined.


Lemma closed_wrapper_refuses_witness :
  NodeSQLite.transaction insert_then_return NodeSQLite.created
  = (Throw NodeSQLite.not_open, NodeSQLite.created)
  /\ NodeSQLite.close NodeSQLite.created
     = (Throw NodeSQLite.not_open, NodeSQLite.created).
Proof.
  destruct (closed_wrapper_refuses (EN := engine) mem_all_rows mem_first_row NodeSQLite.created eq_refl)
    as [_ [_ [_ [Hclose Htx]]]].
  split; [apply Htx | exact Hclose].
Defined.


Lemma nested_transaction_is_refused_witness :
  NodeSQLite.transaction nested connection
  = (Throw (sqlite_error "cannot start a transaction within a transaction"),
     NodeSQLite.mk (Some fresh_db) (Some ":memory:")
       [mkStmt "BEGIN TRANSACTION" []; mkStmt "BEGIN TRANSACTION" [];
        mkStmt "ROLLBACK" []]).
Proof.
  exact (nested_transaction_is_refused Z insert_then_return connection
           fresh_db _ _ _ _ _ _ eq_refl eq_refl eq_refl eq_refl).
Defined.
